(** * A shallow embedding of the batch-inference web service [app.py]

    The service is a Flask application: seven routes, a signed cookie
    session, a pickled model with its column metadata, and an upload folder.
    The routes are embedded as functions over an explicit request state
    (session, file system, user table, log of effects); the libraries the
    routes call (pandas' CSV reader and writers, the fitted model,
    werkzeug's [secure_filename], the user store, bcrypt) are fields of a
    record of collaborators, so that every statement below holds for all
    of them. *)

From Stdlib Require Import ZArith String Ascii List Bool Lia.
From stdpp Require Import base option list strings gmap pretty.

Local Open Scope string_scope.
Local Open Scope Z_scope.
Local Open Scope list_scope.

(** ** Python strings and paths *)

Module Py.

(** [str.lower], on the ASCII letters. *)
Definition lower_ascii (c : ascii) : ascii :=
  let n := nat_of_ascii c in
  if ((65 <=? n) && (n <=? 90))%nat then ascii_of_nat (n + 32) else c.

Fixpoint lower (s : string) : string :=
  match s with
  | EmptyString => EmptyString
  | String c s' => String (lower_ascii c) (lower s')
  end.

(** [s.rfind(c)]: the highest index holding [c], or [-1]. *)
Fixpoint rfind_from (c : ascii) (s : string) (i : Z) : Z :=
  match s with
  | EmptyString => -1
  | String a s' =>
      let r := rfind_from c s' (i + 1) in
      if 0 <=? r then r else if Ascii.eqb a c then i else -1
  end.

Definition rfind (c : ascii) (s : string) : Z := rfind_from c s 0.

(** [s[i:]] *)
Definition slice_from (i : Z) (s : string) : string :=
  String.substring (Z.to_nat i) (String.length s - Z.to_nat i) s.

(** [s[:i]] *)
Definition slice_to (i : Z) (s : string) : string :=
  String.substring 0 (Z.to_nat i) s.

(** [os.path.splitext] (posix): the extension starts at the last dot of
    the last path component, unless that component has only leading dots
    before it. *)
Definition splitext (p : string) : string * string :=
  let sepIndex := rfind "/" p in
  let dotIndex := rfind "." p in
  if (sepIndex <? dotIndex)
     && existsb (fun k => negb (bool_decide
                   (String.get (Z.to_nat (sepIndex + 1) + k) p = Some "."%char)))
                (seq 0 (Z.to_nat (dotIndex - (sepIndex + 1))))
  then (slice_to dotIndex p, slice_from dotIndex p)
  else (p, EmptyString).

(** [os.path.join(a, b)] (posix), two components. *)
Definition path_join (a b : string) : string :=
  match b with
  | String "/" _ => b
  | _ =>
      if bool_decide (a = "") || bool_decide (rfind "/" a = Z.of_nat (String.length a) - 1)
      then a +:+ b
      else a +:+ "/" +:+ b
  end.

(** Truthiness of a [str] or [None] value, of a list or [None], of an
    [int] or [None]. *)
Definition truthy_str (o : option string) : bool :=
  match o with Some s => negb (bool_decide (s = "")) | None => false end.

Definition truthy_list {A} (o : option (list A)) : bool :=
  match o with Some (_ :: _) => true | _ => false end.

Definition truthy_int (o : option Z) : bool :=
  match o with Some n => negb (n =? 0) | None => false end.

(** [c in s], for a character [c]. *)
Fixpoint contains (c : ascii) (s : string) : bool :=
  match s with
  | EmptyString => false
  | String a s' => Ascii.eqb a c || contains c s'
  end.

End Py.

(** ** [datetime] and [strftime] *)

Record datetime := {
  year : Z; month : Z; day : Z;
  hour : Z; minute : Z; second : Z;
  microsecond : Z
}.

(** The values [datetime.now()] can return. Years below 1000 are left out:
    the C library decides how [%Y] pads them. *)
Definition valid_datetime (t : datetime) : Prop :=
  1000 <= year t <= 9999 /\ 1 <= month t <= 12 /\ 1 <= day t <= 31 /\
  0 <= hour t < 24 /\ 0 <= minute t < 60 /\ 0 <= second t < 60 /\
  0 <= microsecond t < 1000000.

Definition digit (n : Z) : ascii := ascii_of_nat (48 + Z.to_nat (n mod 10)).

(** Zero-padded decimal fields, two and four digits wide. *)
Definition pad2 (n : Z) (k : string) : string :=
  String (digit (n / 10)) (String (digit n) k).

Definition pad4 (n : Z) (k : string) : string :=
  String (digit (n / 1000)) (String (digit (n / 100))
    (String (digit (n / 10)) (String (digit n) k))).

(** [t.strftime("%Y%m%d_%H%M%S")] *)
Definition strftime (t : datetime) : string :=
  pad4 (year t) (pad2 (month t) (pad2 (day t)
    (String "_" (pad2 (hour t) (pad2 (minute t) (pad2 (second t) "")))))).

(** The fields of the clock that the format keeps. *)
Definition to_second (t : datetime) : Z * Z * Z * Z * Z * Z :=
  (year t, month t, day t, hour t, minute t, second t).

(** ** pandas tables *)

(** What a [try] block can catch. [External] is an exception raised inside a
    collaborator (the CSV parser, the model, the user store), carried as an
    opaque payload; the others are the ones pandas raises in the operations
    embedded below. *)
Inductive exn :=
| External (payload : string)
| FileNotFoundError (path : string)
| KeyError (not_in_index : list string)
| ValueError_shape (passed implied : nat)
| ValueError_exists (column : string)
| ValueError_length (values index : nat).

Module pd.

(** A [DataFrame]: a row index of [nrows] entries and labelled columns, in
    order. [pd.read_csv] renames repeated header names, so the labels of a
    parsed table are pairwise distinct. *)
Record DataFrame (V : Type) := mkDataFrame {
  nrows : nat;
  cols : list (string * list V)
}.
Arguments mkDataFrame {V}.
Arguments nrows {V}.
Arguments cols {V}.

(** A two-dimensional array, as [model.predict] returns it, by columns. *)
Record ndarray (V : Type) := mkArray {
  arr_rows : nat;
  arr_cols : list (list V)
}.
Arguments mkArray {V}.
Arguments arr_rows {V}.
Arguments arr_cols {V}.

Section Frames.
Context {V : Type}.

(** [df.columns] *)
Definition columns (df : DataFrame V) : list string := (cols df).*1.

(** [c in df.columns] *)
Definition has_column (c : string) (df : DataFrame V) : bool :=
  bool_decide (c ∈ columns df).

Definition lookup_column (c : string) (cs : list (string * list V)) : option (list V) :=
  snd <$> List.find (fun p => String.eqb (fst p) c) cs.

(** [df[c].values], for a label [c] of the table; the labels of a parsed
    table are distinct, so there is one column to find. *)
Definition getitem (c : string) (df : DataFrame V) : option (list V) :=
  lookup_column c (cols df).

(** [df.drop(columns=labels, errors="ignore")] *)
Definition drop_columns (labels : list string) (df : DataFrame V) : DataFrame V :=
  {| nrows := nrows df;
     cols := List.filter (fun p => negb (bool_decide (fst p ∈ labels))) (cols df) |}.

(** [df[labels]] for a list of labels: for each label in turn, the columns
    that carry it; a [KeyError] lists the labels the table does not have. *)
Definition select_columns (labels : list string) (cs : list (string * list V))
  : list (string * list V) :=
  flat_map (fun c => List.filter (fun p => String.eqb (fst p) c) cs) labels.

Definition getitem_list (labels : list string) (df : DataFrame V) : exn + DataFrame V :=
  match List.filter (fun c => negb (bool_decide (c ∈ columns df))) labels with
  | [] => inr {| nrows := nrows df; cols := select_columns labels (cols df) |}
  | not_found => inl (KeyError not_found)
  end.

(** [df.shape[1]] *)
Definition shape1 (df : DataFrame V) : Z := Z.of_nat (length (cols df)).

(** [pd.DataFrame(arr, columns=labels)] *)
Definition from_array (arr : ndarray V) (labels : list string) : exn + DataFrame V :=
  if bool_decide (length (arr_cols arr) = length labels)
  then inr {| nrows := arr_rows arr; cols := zip labels (arr_cols arr) |}
  else inl (ValueError_shape (length (arr_cols arr)) (length labels)).

(** [df.insert(0, c, values)] (on a copy: the embedding is functional). *)
Definition insert0 (c : string) (values : list V) (df : DataFrame V) : exn + DataFrame V :=
  if has_column c df then inl (ValueError_exists c)
  else if bool_decide (length values = nrows df)
  then inr {| nrows := nrows df; cols := (c, values) :: cols df |}
  else inl (ValueError_length (length values) (nrows df)).

(** [df.head(n)] *)
Definition head (n : nat) (df : DataFrame V) : DataFrame V :=
  {| nrows := Nat.min n (nrows df);
     cols := List.map (fun p => (fst p, take n (snd p))) (cols df) |}.

End Frames.
End pd.

(** ** The collaborators *)

Record UserRow := {
  row_id : Z;
  row_username : string;
  row_email : string;
  row_password : string
}.

(** The fitted estimator: its [predict] method, which may raise, and its
    [n_features_in_] attribute, which it may lack. *)
Record Model (V : Type) := {
  model_predict : pd.DataFrame V -> string + pd.ndarray V;
  n_features_in_ : option Z
}.
Arguments model_predict {V}.
Arguments n_features_in_ {V}.

(** The module globals [model], [target_cols], [feature_cols] after the
    loading block: each is [None] or the unpickled value. *)
Record Globals (V : Type) := {
  model : option (Model V);
  target_cols : option (list string);
  feature_cols : option (list string)
}.
Arguments model {V}.
Arguments target_cols {V}.
Arguments feature_cols {V}.

(** The three pickle files next to the application: [None] when the file
    is not there, a left injection when opening or unpickling it raises. *)
Record ArtifactDir (V : Type) := {
  model_pkl : option (string + Model V);
  target_cols_pkl : option (string + list string);
  feature_cols_pkl : option (string + list string)
}.
Arguments model_pkl {V}.
Arguments target_cols_pkl {V}.
Arguments feature_cols_pkl {V}.

(** Lines 29-43: the three globals start as [None] and are assigned in
    turn inside one [try]; the first exception ends the block and keeps
    what was assigned before it. Only the feature list is looked for with
    [os.path.exists] first; opening a missing model or target file
    raises. *)
Definition load_globals {V} (d : ArtifactDir V) : Globals V :=
  match model_pkl d with
  | Some (inr m) =>
      match target_cols_pkl d with
      | Some (inr tcols) =>
          match feature_cols_pkl d with
          | Some (inr fcols) =>
              {| model := Some m; target_cols := Some tcols; feature_cols := Some fcols |}
          | _ => {| model := Some m; target_cols := Some tcols; feature_cols := None |}
          end
      | _ => {| model := Some m; target_cols := None; feature_cols := None |}
      end
  | _ => {| model := None; target_cols := None; feature_cols := None |}
  end.

(** The library functions the routes call. A left injection is an
    exception, with its payload. *)
Record Collaborators (V : Type) := {
  secure_filename : string -> string;
  parse_csv : string -> string + pd.DataFrame V;
  to_csv : pd.DataFrame V -> string;
  to_html : pd.DataFrame V -> string;
  py_str : exn -> string;
  py_repr : list string -> string;
  generate_password_hash : string -> string + string;
  check_password_hash : string -> string -> string + bool;
  users_insert : list UserRow -> string -> string -> string -> string + list UserRow;
  users_select_eq_email : list UserRow -> string -> string + list UserRow
}.
Arguments secure_filename {V}.
Arguments parse_csv {V}.
Arguments to_csv {V}.
Arguments to_html {V}.
Arguments py_str {V}.
Arguments py_repr {V}.
Arguments generate_password_hash {V}.
Arguments check_password_hash {V}.
Arguments users_insert {V}.
Arguments users_select_eq_email {V}.

(** ** Requests, responses and the request state *)

Inductive Method := GET | POST | HEAD.

(** [request.files["file"]] *)
Record FileStorage := {
  filename : string;
  content : string
}.

(** What a route reads from the request context: the method, the upload
    field named [file] when there is one, the form fields, and the clock. *)
Record Request := {
  method : Method;
  files_file : option FileStorage;
  form : gmap string string;
  now : datetime
}.

(** The Flask session: the three keys the application ever writes. *)
Record Session := {
  user_id : option Z;
  username : option string;
  last_prediction_csv : option string
}.

Definition session_clear : Session :=
  {| user_id := None; username := None; last_prediction_csv := None |}.

(** The session with the pointer set to [name]. *)
Definition pointing_to (name : string) (s : Session) : Session :=
  {| user_id := user_id s; username := username s; last_prediction_csv := Some name |}.

(** The session with the login keys set to [uid] and [name]. *)
Definition signed_in (uid : option Z) (name : option string) (s : Session) : Session :=
  {| user_id := uid; username := name; last_prediction_csv := last_prediction_csv s |}.

(** The two login keys go together: whoever has [user_id] has [username]. *)
Definition named_user (s : Session) : Prop :=
  is_Some (user_id s) -> is_Some (username s).

Inductive Context :=
| NoContext
| PredictionResult (prediction_result : string)
| DashboardContext (name : string) (targets : option nat) (expected_features : option Z).

Inductive Response :=
| render_template_string (template : string) (ctx : Context)
| redirect (location : string)
| Body (text : string) (status : Z)
| send_file (path mimetype download_name : string)
| Abort (status : Z).

(** *** The body of a [try] block

    A computation reads and writes the state and ends with a value, with a
    [return] of the enclosing route, or with a raised exception. *)
Inductive outcome (A : Type) :=
| Val (a : A)
| Return (r : Response)
| Raise (e : exn).
Arguments Val {A}.
Arguments Return {A}.
Arguments Raise {A}.

Section Service.
Context {V : Type}.
Variable E : Collaborators V.
Variable G : Globals V.

(** The effects a request can have outside the session. *)
Inductive Event :=
| EvSave (path : string)
| EvReadCsv (path : string)
| EvPredict (X : pd.DataFrame V)
| EvToCsv (path : string) (df : pd.DataFrame V).

(** The state a request runs in: the caller's session, the files on disk
    (path to content), the user table, and the log of effects so far. The
    disk is an ideal one: every write goes through. *)
Record State := {
  session : Session;
  fs : gmap string string;
  users : list UserRow;
  trace : list Event
}.

Definition UPLOAD_FOLDER : string := "uploads".
Definition ALLOWED_EXTENSIONS : list string := [".csv"].

Definition allowed_file (name : string) : bool :=
  bool_decide (Py.lower (snd (Py.splitext name)) ∈ ALLOWED_EXTENSIONS).

Definition M (A : Type) : Type := State -> outcome A * State.

(** A step that leaves the state alone. *)
Definition pure {A} (o : outcome A) : M A := fun st => (o, st).

Definition ret {A} (a : A) : M A := pure (Val a).

Definition bind {A B} (m : M A) (k : A -> M B) : M B :=
  fun st =>
    match m st with
    | (Val a, st') => k a st'
    | (Return r, st') => (Return r, st')
    | (Raise e, st') => (Raise e, st')
    end.

Definition raise {A} (e : exn) : M A := pure (Raise e).

Definition lift {A} (x : exn + A) : M A :=
  match x with inl e => raise e | inr a => ret a end.

Definition lift_external {A} (x : string + A) : M A :=
  match x with inl payload => raise (External payload) | inr a => ret a end.

Definition emit (ev : Event) : M unit :=
  fun st =>
    (Val tt, {| session := session st; fs := fs st; users := users st;
                trace := trace st ++ [ev] |}).

Definition write_file (path data : string) : M unit :=
  fun st =>
    (Val tt, {| session := session st; fs := <[path := data]> (fs st);
                users := users st; trace := trace st |}).

Definition set_last_prediction_csv (name : string) : M unit :=
  fun st =>
    (Val tt, {| session := {| user_id := user_id (session st);
                              username := username (session st);
                              last_prediction_csv := Some name |};
                fs := fs st; users := users st; trace := trace st |}).

End Service.

(** The tables handed to [model.predict], and the tables written with
    [to_csv], in a log of effects. *)
Definition model_inputs {V} (tr : list (Event (V := V))) : list (pd.DataFrame V) :=
  omap (fun ev => match ev with EvPredict X => Some X | _ => None end) tr.

Definition written {V} (tr : list (Event (V := V))) : list (string * pd.DataFrame V) :=
  omap (fun ev => match ev with EvToCsv path df => Some (path, df) | _ => None end) tr.

Arguments Event V : clear implicits.
Arguments State V : clear implicits.
Arguments M V A : clear implicits.

Notation "'do' x <- m ; k" := (bind m (fun x => k))
  (at level 10, x name, m at level 100, k at level 200).
Notation "'exec' m ; k" := (bind m (fun _ => k))
  (at level 10, m at level 100, k at level 200).

(** ** The routes *)

Section Routes.
Context {V : Type}.
Variable E : Collaborators V.
Variable G : Globals V.

Definition save (path data : string) : M V unit :=
  exec emit (EvSave path);
  write_file path data.

(** [pd.read_csv(path)] *)
Definition read_csv (path : string) : M V (pd.DataFrame V) :=
  exec emit (EvReadCsv path);
  fun st =>
    match fs st !! path with
    | Some data => lift_external (parse_csv E data) st
    | None => raise (FileNotFoundError path) st
    end.

(** [model.predict(X)] *)
Definition call_predict (m : Model V) (X : pd.DataFrame V) : M V (pd.ndarray V) :=
  exec emit (EvPredict X);
  lift_external (model_predict m X).

(** [df.to_csv(path, index=False)] *)
Definition df_to_csv (path : string) (df : pd.DataFrame V) : M V unit :=
  exec emit (EvToCsv path df);
  write_file path (to_csv E df).

Definition predict_page (msg : string) : Response :=
  render_template_string "predict.html" (PredictionResult msg).

(** Lines 139-147: the feature check, and the table handed to the model.
    It touches neither the session nor the disk. *)
Definition align_features (m : Model V) (X : pd.DataFrame V) : outcome (pd.DataFrame V) :=
  if Py.truthy_list (feature_cols G) then
    let fc := default [] (feature_cols G) in
    let missing := List.filter (fun c => negb (bool_decide (c ∈ pd.columns X))) fc in
    if Py.truthy_list (Some missing) then
      Return (predict_page
        ("❌ Missing features: " +:+ py_repr E (take 10 missing)
           +:+ (if (10 <? length missing)%nat then "..." else "")))
    else
      match pd.getitem_list fc X with
      | inr X' => Val X'
      | inl e => Raise e
      end
  else
    let expected := n_features_in_ m in
    if Py.truthy_int expected && negb (pd.shape1 X =? default 0 expected) then
      Return (predict_page
        ("❌ Model expects " +:+ pretty (default 0 expected)
           +:+ " features, got " +:+ pretty (pd.shape1 X)))
    else Val X.

(** Line 155: the name the result is stored under. *)
Definition out_name (t : datetime) : string :=
  "predictions_" +:+ strftime t +:+ ".csv".

Definition result_path (t : datetime) : string :=
  Py.path_join UPLOAD_FOLDER (out_name t).

Definition success_page (pred_df : pd.DataFrame V) : Response :=
  predict_page
    ("✅ Prediction done! " +:+ pretty (pd.nrows pred_df)
       +:+ " rows processed. <a href='/download'>📥 Download CSV</a><br><br>"
       +:+ to_html E (pd.head 10 pred_df)).

(** Lines 151-152: [if ids is not None: pred_df.insert(0, "ID", ids.values)] *)
Definition attach_ids (ids : option (list V)) (pred_df : pd.DataFrame V)
  : exn + pd.DataFrame V :=
  match ids with
  | Some values => pd.insert0 "ID" values pred_df
  | None => inr pred_df
  end.

(** Lines 136-161: the [try] block of [predict] from the parsed table on. *)
Definition predict_parsed (req : Request) (m : Model V) (tcols : list string)
    (df : pd.DataFrame V) : M V Response :=
  let ids := if pd.has_column "ID" df then pd.getitem "ID" df else None in
  let X := pd.drop_columns ["ID"] df in
  do X <- pure (align_features m X);
  do preds <- call_predict m X;
  do pred_df <- lift (pd.from_array preds tcols);
  do pred_df <- lift (attach_ids ids pred_df);
  exec df_to_csv (result_path (now req)) pred_df;
  exec set_last_prediction_csv (out_name (now req));
  ret (success_page pred_df).

(** Lines 131-135: the upload is stored under its sanitised name and read
    back. *)
Definition upload_path (file : FileStorage) : string :=
  Py.path_join UPLOAD_FOLDER (secure_filename E (filename file)).

Definition predict_try (req : Request) (file : FileStorage) (m : Model V)
    (tcols : list string) : M V Response :=
  exec save (upload_path file) (content file);
  do df <- read_csv (upload_path file);
  predict_parsed req m tcols df.

(** A request that gets as far as a parsed table [df]: it is not a GET, it
    carries a file with an allowed name, the model and the target list are
    loaded, and the parser accepts the content. *)
Definition parsed_upload (req : Request) (file : FileStorage) (m : Model V)
    (tcols : list string) (df : pd.DataFrame V) : Prop :=
  method req <> GET /\ files_file req = Some file /\
  filename file <> "" /\ allowed_file (filename file) = true /\
  model G = Some m /\ target_cols G = Some tcols /\
  parse_csv E (content file) = inr df.

(** A request that gets as far as the [try] block: as [parsed_upload],
    without the parser's verdict. *)
Definition accepted_upload (req : Request) (file : FileStorage) (m : Model V)
    (tcols : list string) : Prop :=
  method req <> GET /\ files_file req = Some file /\
  filename file <> "" /\ allowed_file (filename file) = true /\
  model G = Some m /\ target_cols G = Some tcols.

(** The state once the upload is on disk and has been read back. *)
Definition uploaded (file : FileStorage) (st : State V) : State V :=
  {| session := session st;
     fs := <[upload_path file := content file]> (fs st);
     users := users st;
     trace := trace st ++ [EvSave (upload_path file); EvReadCsv (upload_path file)] |}.

(** The state once the model has been called on [X]. *)
Definition predicted (X : pd.DataFrame V) (st : State V) : State V :=
  {| session := session st; fs := fs st; users := users st;
     trace := trace st ++ [EvPredict X] |}.

(** The state once the result [T] is on disk and the session points to it. *)
Definition stored (t : datetime) (T : pd.DataFrame V) (st : State V) : State V :=
  {| session := {| user_id := user_id (session st);
                   username := username (session st);
                   last_prediction_csv := Some (out_name t) |};
     fs := <[result_path t := to_csv E T]> (fs st);
     users := users st;
     trace := trace st ++ [EvToCsv (result_path t) T] |}.

(** The pointers the application ever records: none, or the name built
    from some clock reading. *)
Definition recorded (s : Session) : Prop :=
  last_prediction_csv s = None \/ exists t, last_prediction_csv s = Some (out_name t).

(** Lines 163-164: [except Exception as e]. *)
Definition except_Exception (r : outcome Response * State V) : Response * State V :=
  match r with
  | (Val resp, st') => (resp, st')
  | (Return resp, st') => (resp, st')
  | (Raise e, st') => (predict_page ("❌ Error: " +:+ py_str E e), st')
  end.

(** [/predict] *)
Definition predict (req : Request) (st : State V) : Response * State V :=
  match method req with
  | GET => (render_template_string "predict.html" NoContext, st)
  | _ =>
      match files_file req with
      | None => (predict_page "❌ No file uploaded.", st)
      | Some file =>
          if bool_decide (filename file = "") || negb (allowed_file (filename file))
          then (predict_page "❌ Invalid file.", st)
          else
            match model G, target_cols G with
            | Some m, Some tcols => except_Exception (predict_try req file m tcols st)
            | _, _ => (predict_page "❌ Model not loaded.", st)
            end
      end
  end.

(** [/download] *)
Definition download (st : State V) : Response * State V :=
  let out_name := last_prediction_csv (session st) in
  if negb (Py.truthy_str out_name) then (Body "❌ No predictions available." 400, st)
  else
    let name := default "" out_name in
    let result_path := Py.path_join UPLOAD_FOLDER name in
    if negb (bool_decide (is_Some (fs st !! result_path)))
    then (Body "❌ Prediction file not found." 404, st)
    else (send_file result_path "text/csv" name, st).

(** [/] *)
Definition index (st : State V) : Response * State V :=
  (render_template_string "index.html" NoContext, st).

(** [/signup]. A form field that is missing ends the request with 400;
    the hash is computed before the [try], so that bcrypt raising (as it
    does on an empty password) ends the request with 500; the insertion
    is the only call under [try]. *)
Definition signup (req : Request) (st : State V) : Response * State V :=
  match method req with
  | POST =>
      match form req !! "username", form req !! "email", form req !! "password" with
      | Some name, Some email, Some password =>
          match generate_password_hash E password with
          | inl _ => (Abort 500, st)
          | inr password_hash =>
              match users_insert E (users st) name email password_hash with
              | inl payload =>
                  (Body ("❌ Signup failed: " +:+ py_str E (External payload)) 200, st)
              | inr users' =>
                  (redirect "/login",
                   {| session := session st; fs := fs st; users := users';
                      trace := trace st |})
              end
          end
      | _, _, _ => (Abort 400, st)
      end
  | _ => (render_template_string "signup.html" NoContext, st)
  end.

(** [/login]. Nothing is under [try]: a failing query, or bcrypt raising
    on the stored value (as it does when that is not a bcrypt hash), ends
    the request with 500. The password is checked only when the query
    returned a row. *)
Definition login (req : Request) (st : State V) : Response * State V :=
  match method req with
  | POST =>
      match form req !! "email", form req !! "password" with
      | Some email, Some password =>
          match users_select_eq_email E (users st) email with
          | inl _ => (Abort 500, st)
          | inr user_data =>
              match user_data with
              | u :: _ =>
                  match check_password_hash E (row_password u) password with
                  | inl _ => (Abort 500, st)
                  | inr true =>
                      (redirect "/dashboard",
                       {| session :=
                            {| user_id := Some (row_id u);
                               username := Some (row_username u);
                               last_prediction_csv := last_prediction_csv (session st) |};
                          fs := fs st; users := users st; trace := trace st |})
                  | inr false => (Body "❌ Invalid credentials" 200, st)
                  end
              | [] => (Body "❌ Invalid credentials" 200, st)
              end
          end
      | _, _ => (Abort 400, st)
      end
  | _ => (render_template_string "login.html" NoContext, st)
  end.

(** [/dashboard]: the one route that looks at [user_id]. *)
Definition dashboard (st : State V) : Response * State V :=
  match user_id (session st) with
  | None => (redirect "/login", st)
  | Some _ =>
      let expected_features :=
        match model G with Some m => n_features_in_ m | None => None end in
      let targets :=
        if Py.truthy_list (target_cols G)
        then Some (length (default [] (target_cols G))) else None in
      match username (session st) with
      | Some name =>
          (render_template_string "dashboard.html"
             (DashboardContext name targets expected_features), st)
      | None => (Abort 500, st)
      end
  end.

(** [/logout] *)
Definition logout (st : State V) : Response * State V :=
  (redirect "/",
   {| session := session_clear; fs := fs st; users := users st; trace := trace st |}).

Inductive Route :=
| RIndex | RSignup | RLogin | RDashboard | RLogout | RPredict | RDownload.

(** A route declared without [methods]: Flask serves GET (and HEAD) and
    answers 405 to a POST without calling the view. *)
Definition get_only (req : Request) (st : State V) (view : Response * State V)
  : Response * State V :=
  match method req with
  | POST => (Abort 405, st)
  | _ => view
  end.

(** One request to one route. [/signup], [/login] and [/predict] are
    declared with [methods=["GET", "POST"]]. *)
Definition handle (r : Route) (req : Request) (st : State V) : Response * State V :=
  match r with
  | RIndex => get_only req st (index st)
  | RSignup => signup req st
  | RLogin => login req st
  | RDashboard => get_only req st (dashboard st)
  | RLogout => get_only req st (logout st)
  | RPredict => predict req st
  | RDownload => get_only req st (download st)
  end.

(** The pointer of the session, when there is one, names a file that is
    in the upload folder. *)
Definition pointer_on_disk (st : State V) : Prop :=
  forall name,
    last_prediction_csv (session st) = Some name ->
    is_Some (fs st !! Py.path_join UPLOAD_FOLDER name).

(** A browser session: requests served one after the other, each on the
    state the previous one left. *)
Fixpoint serve (reqs : list (Route * Request)) (st : State V) : State V :=
  match reqs with
  | [] => st
  | (r, req) :: rest => serve rest (snd (handle r req st))
  end.

End Routes.

(** ** A small instance

    The service of the specification's examples: features [x1], [x2], one
    target [y], and a model that adds the two features. The collaborators
    are stand-ins that compute. *)

Module Demo.

Definition sum_model (X : pd.DataFrame Z) : string + pd.ndarray Z :=
  match pd.cols X with
  | [(_, a); (_, b)] =>
      inr {| pd.arr_rows := pd.nrows X; pd.arr_cols := [zip_with Z.add a b] |}
  | _ => inl "X has the wrong number of features"
  end.

(** A model that looks at no feature: it answers 0 for every row, and was
    fitted on a table without columns. *)
Definition constant_model (X : pd.DataFrame Z) : string + pd.ndarray Z :=
  inr {| pd.arr_rows := pd.nrows X; pd.arr_cols := [replicate (pd.nrows X) 0] |}.

Definition failing_model (X : pd.DataFrame Z) : string + pd.ndarray Z :=
  inl "could not convert string to float".

Definition upload_a : pd.DataFrame Z :=
  {| pd.nrows := 2; pd.cols := [("ID", [1; 2]); ("x1", [2; 5]); ("x2", [3; 5])] |}.

Definition upload_b : pd.DataFrame Z :=
  {| pd.nrows := 2; pd.cols := [("ID", [1; 2]); ("x2", [3; 5]); ("x1", [2; 5])] |}.

Definition upload_c : pd.DataFrame Z :=
  {| pd.nrows := 2; pd.cols := [("ID", [1; 2]); ("x1", [2; 5])] |}.

Definition E : Collaborators Z :=
  {| secure_filename := fun s => s;
     parse_csv := fun data =>
       if bool_decide (data = "a") then inr upload_a
       else if bool_decide (data = "b") then inr upload_b
       else if bool_decide (data = "c") then inr upload_c
       else inl "Error tokenizing data";
     to_csv := fun df => String.concat "," (pd.columns df);
     to_html := fun df => "<table>";
     py_str := fun e => match e with External payload => payload | _ => "error" end;
     py_repr := fun l => String.concat ", " l;
     generate_password_hash := fun pw =>
       if bool_decide (pw = "") then inl "Password must be non-empty."
       else inr ("$2b$" +:+ pw);
     check_password_hash := fun stored pw =>
       if String.prefix "$2b$" stored then inr (String.eqb stored ("$2b$" +:+ pw))
       else inl "Invalid salt";
     users_insert := fun us name email pw =>
       inr (us ++ [{| row_id := Z.of_nat (length us); row_username := name;
                      row_email := email; row_password := pw |}]);
     users_select_eq_email := fun us email =>
       inr (List.filter (fun u => String.eqb (row_email u) email) us) |}.

Definition adder : Model Z :=
  {| model_predict := sum_model; n_features_in_ := Some 2 |}.

(** The full set of artifacts. *)
Definition G : Globals Z :=
  {| model := Some adder; target_cols := Some ["y"];
     feature_cols := Some ["x1"; "x2"] |}.

(** The feature list is loaded and empty. *)
Definition G_empty : Globals Z :=
  {| model := Some adder; target_cols := Some ["y"]; feature_cols := Some [] |}.

(** No feature list: degraded mode. *)
Definition G_degraded : Globals Z :=
  {| model := Some adder; target_cols := Some ["y"]; feature_cols := None |}.

(** No feature list, and a model whose expected count is zero. *)
Definition G_zero : Globals Z :=
  {| model := Some {| model_predict := constant_model; n_features_in_ := Some 0 |};
     target_cols := Some ["y"]; feature_cols := None |}.

(** A model that raises on every call. *)
Definition G_failing : Globals Z :=
  {| model := Some {| model_predict := failing_model; n_features_in_ := Some 2 |};
     target_cols := Some ["y"]; feature_cols := Some ["x1"; "x2"] |}.

Definition t0 : datetime :=
  {| year := 2024; month := 3; day := 9; hour := 7; minute := 5; second := 0;
     microsecond := 123 |}.

(** Later within the same second. *)
Definition t0_later : datetime :=
  {| year := 2024; month := 3; day := 9; hour := 7; minute := 5; second := 0;
     microsecond := 900000 |}.

Definition t1 : datetime :=
  {| year := 2024; month := 3; day := 9; hour := 7; minute := 5; second := 1;
     microsecond := 0 |}.

Definition file_a : FileStorage := {| filename := "a.csv"; content := "a" |}.
Definition file_b : FileStorage := {| filename := "b.csv"; content := "b" |}.
Definition file_c : FileStorage := {| filename := "c.CSV"; content := "c" |}.

Definition post (file : FileStorage) (t : datetime) : Request :=
  {| method := POST; files_file := Some file; form := ∅; now := t |}.

Definition req_a : Request := post file_a t0.
Definition req_b : Request := post file_b t0.
Definition req_b_later : Request := post file_b t0_later.
Definition req_b_next : Request := post file_b t1.
Definition req_c : Request := post file_c t0.

Definition get : Request :=
  {| method := GET; files_file := None; form := ∅; now := t1 |}.

(** A fresh visitor: nobody is logged in, nothing is on disk. *)
Definition st0 : State Z :=
  {| session := session_clear; fs := ∅; users := []; trace := [] |}.

(** A logged-in session that points to a result which is not on disk. *)
Definition st_pointer : State Z :=
  {| session := {| user_id := Some 7; username := Some "ada";
                   last_prediction_csv := Some (out_name t0) |};
     fs := ∅; users := []; trace := [] |}.

Definition table_y : pd.DataFrame Z :=
  {| pd.nrows := 2; pd.cols := [("ID", [1; 2]); ("y", [5; 10])] |}.

Definition table_zero : pd.DataFrame Z :=
  {| pd.nrows := 2; pd.cols := [("ID", [1; 2]); ("y", [0; 0])] |}.

(** No schema at all: no feature list, and a model without
    [n_features_in_]. *)
Definition G_bare : Globals Z :=
  {| model := Some {| model_predict := constant_model; n_features_in_ := None |};
     target_cols := Some ["y"]; feature_cols := None |}.

(** A target list that names its column [ID]. *)
Definition G_id_target : Globals Z :=
  {| model := Some adder; target_cols := Some ["ID"];
     feature_cols := Some ["x1"; "x2"] |}.

(** An upload without identifiers. *)
Definition upload_d : pd.DataFrame Z :=
  {| pd.nrows := 2; pd.cols := [("x1", [2; 5]); ("x2", [3; 5])] |}.

Definition table_plain : pd.DataFrame Z :=
  {| pd.nrows := 2; pd.cols := [("y", [5; 10])] |}.

(** The same collaborators, with a parser that also knows [upload_d]. *)
Definition E_plain : Collaborators Z :=
  {| secure_filename := secure_filename E;
     parse_csv := fun data =>
       if bool_decide (data = "d") then inr upload_d else parse_csv E data;
     to_csv := to_csv E;
     to_html := to_html E;
     py_str := py_str E;
     py_repr := py_repr E;
     generate_password_hash := generate_password_hash E;
     check_password_hash := check_password_hash E;
     users_insert := users_insert E;
     users_select_eq_email := users_select_eq_email E |}.

Definition file_d : FileStorage := {| filename := "d.csv"; content := "d" |}.
Definition req_d : Request := post file_d t0.
Definition req_d_later : Request := post file_d t0_later.

(** Another browser on the same server: its own, empty session; the disk,
    the user table and the log are the shared ones. *)
Definition other_session (st : State Z) : State Z :=
  {| session := session_clear; fs := fs st; users := users st; trace := trace st |}.

(** The first browser again, on the disk as the server now has it. *)
Definition back_to (mine now_ : State Z) : State Z :=
  {| session := session mine; fs := fs now_; users := users now_; trace := trace now_ |}.

(** A disk that already holds a file of somebody else. *)
Definition st_busy : State Z :=
  {| session := session_clear; fs := <["uploads/keep.csv" := "keep"]> ∅;
     users := []; trace := [] |}.

(** An upload the parser refuses. *)
Definition file_bad : FileStorage := {| filename := "bad.csv"; content := "1;2;;" |}.
Definition req_bad : Request := post file_bad t0.

(** One registered user, and her login form. *)
Definition ada : UserRow :=
  {| row_id := 7; row_username := "ada"; row_email := "ada@example.org";
     row_password := "$2b$s3cret" |}.

Definition st_registered : State Z :=
  {| session := session_clear; fs := ∅; users := [ada]; trace := [] |}.

Definition login_ada : Request :=
  {| method := POST; files_file := None;
     form := <["email" := "ada@example.org"]> (<["password" := "s3cret"]> ∅);
     now := t0 |}.

(** A sign-up form, and one with an empty password. *)
Definition signup_form (password : string) : Request :=
  {| method := POST; files_file := None;
     form := <["username" := "bob"]> (<["email" := "bob@example.org"]>
               (<["password" := password]> ∅));
     now := t0 |}.

(** A user table whose stored password is not a bcrypt hash. *)
Definition st_legacy : State Z :=
  {| session := session_clear; fs := ∅;
     users := [{| row_id := 7; row_username := "ada"; row_email := "ada@example.org";
                  row_password := "s3cret" |}];
     trace := [] |}.

(** Artifact directories: everything there; the target list unreadable. *)
Definition dir_full : ArtifactDir Z :=
  {| model_pkl := Some (inr adder); target_cols_pkl := Some (inr ["y"]);
     feature_cols_pkl := Some (inr ["x1"; "x2"]) |}.

Definition dir_no_targets : ArtifactDir Z :=
  {| model_pkl := Some (inr adder); target_cols_pkl := Some (inl "unpickling stack underflow");
     feature_cols_pkl := Some (inr ["x1"; "x2"]) |}.

End Demo.


(** * Properties *)

(** ** The timestamp in the result name *)

Lemma digit_inj a b : digit a = digit b -> a mod 10 = b mod 10.
Proof.
  unfold digit. intros H. apply (f_equal nat_of_ascii) in H.
  pose proof (Z.mod_pos_bound a 10 eq_refl) as Ha.
  pose proof (Z.mod_pos_bound b 10 eq_refl) as Hb.
  rewrite !nat_ascii_embedding in H by lia. lia.
Qed.

Lemma pad2_inj a b k k' :
  0 <= a < 100 -> 0 <= b < 100 -> pad2 a k = pad2 b k' -> a = b /\ k = k'.
Proof.
  intros Ha Hb H. unfold pad2 in H. injection H as H1 H2 H3.
  apply digit_inj in H1, H2. split; [| exact H3].
  Z.div_mod_to_equations. lia.
Qed.

Lemma pad4_inj a b k k' :
  0 <= a < 10000 -> 0 <= b < 10000 -> pad4 a k = pad4 b k' -> a = b /\ k = k'.
Proof.
  intros Ha Hb H. unfold pad4 in H. injection H as H1 H2 H3 H4 H5.
  apply digit_inj in H1, H2, H3, H4. split; [| exact H5].
  Z.div_mod_to_equations. lia.
Qed.

Lemma result_path_unfold t :
  result_path t = "uploads/predictions_" +:+ (strftime t +:+ ".csv").
Proof. reflexivity. Qed.

Lemma append_inv_prefix (p x y : string) : p +:+ x = p +:+ y -> x = y.
Proof. induction p as [| c p IH]; cbn; [auto |]. intros [= H]. auto. Qed.

Lemma pad2_inj_append a b k k' s s' :
  0 <= a < 100 -> 0 <= b < 100 ->
  pad2 a k +:+ s = pad2 b k' +:+ s' -> a = b /\ k +:+ s = k' +:+ s'.
Proof. intros Ha Hb H. by apply (pad2_inj a b (k +:+ s) (k' +:+ s')). Qed.

Lemma pad4_inj_append a b k k' s s' :
  0 <= a < 10000 -> 0 <= b < 10000 ->
  pad4 a k +:+ s = pad4 b k' +:+ s' -> a = b /\ k +:+ s = k' +:+ s'.
Proof. intros Ha Hb H. by apply (pad4_inj a b (k +:+ s) (k' +:+ s')). Qed.

Lemma String_inj_append c k k' s s' :
  String c k +:+ s = String c k' +:+ s' -> k +:+ s = k' +:+ s'.
Proof. cbn. by intros [= H]. Qed.

(** The formatted timestamp determines the clock down to the second. *)
Lemma result_path_inj t1 t2 :
  valid_datetime t1 -> valid_datetime t2 ->
  result_path t1 = result_path t2 -> to_second t1 = to_second t2.
Proof.
  intros (Hy1 & Hm1 & Hd1 & HH1 & HM1 & HS1 & _) (Hy2 & Hm2 & Hd2 & HH2 & HM2 & HS2 & _).
  rewrite !result_path_unfold. unfold strftime, to_second.
  intros H. apply append_inv_prefix in H.
  apply pad4_inj_append in H as [-> H]; [| lia | lia].
  apply pad2_inj_append in H as [-> H]; [| lia | lia].
  apply pad2_inj_append in H as [-> H]; [| lia | lia].
  apply String_inj_append in H.
  apply pad2_inj_append in H as [-> H]; [| lia | lia].
  apply pad2_inj_append in H as [-> H]; [| lia | lia].
  apply pad2_inj_append in H as [-> H]; [| lia | lia].
  reflexivity.
Qed.

Lemma result_path_to_second t1 t2 :
  to_second t1 = to_second t2 -> result_path t1 = result_path t2.
Proof.
  rewrite !result_path_unfold. unfold strftime, to_second.
  intros [= -> -> -> -> -> ->]. reflexivity.
Qed.

Section Pipeline.
Context {V : Type}.
Variable E : Collaborators V.
Variable G : Globals V.

Implicit Types (st : State V) (df X T : pd.DataFrame V) (m : Model V).

(** The [try] block from the parsed table on, in closed form: each exit of
    the block with the state it leaves. *)
Lemma predict_parsed_eq req m tcols df st :
  predict_parsed E G req m tcols df st =
    match align_features E G m (pd.drop_columns ["ID"] df) with
    | Val X =>
        match model_predict m X with
        | inl payload => (Raise (External payload), predicted X st)
        | inr preds =>
            match pd.from_array preds tcols with
            | inl e => (Raise e, predicted X st)
            | inr T0 =>
                match attach_ids
                        (if pd.has_column "ID" df then pd.getitem "ID" df else None) T0 with
                | inl e => (Raise e, predicted X st)
                | inr T =>
                    (Val (success_page E T), stored E (now req) T (predicted X st))
                end
            end
        end
    | Return r => (Return r, st)
    | Raise e => (Raise e, st)
    end.
Proof.
  unfold predict_parsed, bind, pure.
  destruct (align_features E G m _) as [X | r | e]; try reflexivity.
  unfold call_predict, bind, emit, lift_external, raise, ret, pure. cbn.
  destruct (model_predict m X) as [payload | preds]; try reflexivity.
  unfold lift, raise, ret, pure.
  destruct (pd.from_array preds tcols) as [e | T0]; try reflexivity.
  destruct (attach_ids _ T0) as [e | T]; reflexivity.
Qed.

(** The first lines of the [try] block: the upload is written, read back
    and parsed. *)
Lemma predict_try_eq req file m tcols st :
  predict_try E G req file m tcols st =
    match parse_csv E (content file) with
    | inr df => predict_parsed E G req m tcols df (uploaded E file st)
    | inl payload => (Raise (External payload), uploaded E file st)
    end.
Proof.
  unfold predict_try, save, read_csv, bind, emit, write_file, pure.
  cbn -[predict_parsed]. rewrite lookup_insert_eq.
  unfold uploaded. rewrite <- app_assoc.
  destruct (parse_csv E (content file)); reflexivity.
Qed.

(** A request with a parsable upload runs the whole [try] block on the
    parsed table. *)
Lemma predict_parsed_upload req file m tcols df st :
  parsed_upload E G req file m tcols df ->
  predict E G req st =
    except_Exception E (predict_parsed E G req m tcols df (uploaded E file st)).
Proof.
  intros (Hm & Hf & Hn & Ha & HM & HT & HP).
  unfold predict. rewrite Hf, Ha, HM, HT.
  rewrite bool_decide_eq_false_2 by exact Hn. cbn [orb negb].
  rewrite predict_try_eq, HP.
  destruct (method req); [congruence | reflexivity | reflexivity].
Qed.

(** The log projections distribute over the states of the pipeline. *)
Lemma model_inputs_app (tr1 tr2 : list (Event V)) :
  model_inputs (tr1 ++ tr2) = model_inputs tr1 ++ model_inputs tr2.
Proof. apply omap_app. Qed.

Lemma written_app (tr1 tr2 : list (Event V)) :
  written (tr1 ++ tr2) = written tr1 ++ written tr2.
Proof. apply omap_app. Qed.

Lemma uploaded_log file st :
  model_inputs (trace (uploaded E file st)) = model_inputs (trace st) /\
  written (trace (uploaded E file st)) = written (trace st) /\
  session (uploaded E file st) = session st.
Proof.
  unfold uploaded; cbn [trace session].
  rewrite model_inputs_app, written_app. cbn. rewrite !app_nil_r. auto.
Qed.

Lemma predicted_log X st :
  model_inputs (trace (predicted X st)) = model_inputs (trace st) ++ [X] /\
  written (trace (predicted X st)) = written (trace st) /\
  session (predicted X st) = session st.
Proof.
  unfold predicted; cbn [trace session].
  rewrite model_inputs_app, written_app. cbn. rewrite !app_nil_r. auto.
Qed.

Lemma stored_log t T st :
  model_inputs (trace (stored E t T st)) = model_inputs (trace st) /\
  written (trace (stored E t T st)) = written (trace st) ++ [(result_path t, T)] /\
  last_prediction_csv (session (stored E t T st)) = Some (out_name t).
Proof.
  unfold stored; cbn [trace session last_prediction_csv].
  rewrite model_inputs_app, written_app. cbn. rewrite !app_nil_r. auto.
Qed.

(** Once the feature check hands on a table [X], the model is called on
    it, once, however the rest of the block ends. *)
Lemma model_called_once req m tcols df X st :
  align_features E G m (pd.drop_columns ["ID"] df) = Val X ->
  model_inputs (trace (snd (except_Exception E (predict_parsed E G req m tcols df st)))) =
    model_inputs (trace st) ++ [X].
Proof.
  intros Hal. rewrite predict_parsed_eq, Hal.
  destruct (predicted_log X st) as (Hp & _).
  destruct (model_predict m X) as [payload | preds]; [exact Hp |].
  destruct (pd.from_array preds tcols) as [e | T0]; [exact Hp |].
  destruct (attach_ids _ T0) as [e | T]; [exact Hp |].
  cbn [except_Exception snd].
  destruct (stored_log (now req) T (predicted X st)) as (Hs & _). congruence.
Qed.

(** With a named schema that the upload does not cover, the feature check
    returns the missing-features page. *)
Lemma align_missing m X fc :
  feature_cols G = Some fc ->
  (exists c, c ∈ fc /\ c ∉ pd.columns X) ->
  align_features E G m X =
    Return (predict_page
      (let missing := List.filter (fun c => negb (bool_decide (c ∈ pd.columns X))) fc in
       "❌ Missing features: " +:+ py_repr E (take 10 missing)
         +:+ (if (10 <? length missing)%nat then "..." else ""))).
Proof.
  intros Hfc (c & Hin & Hout). unfold align_features. rewrite Hfc.
  assert (Hm : c ∈ List.filter (fun c => negb (bool_decide (c ∈ pd.columns X))) fc).
  { apply list_elem_of_In, filter_In. split; [by apply list_elem_of_In |].
    by rewrite bool_decide_eq_false_2. }
  destruct fc as [| c0 fc']; [by apply elem_of_nil in Hin |].
  cbn [Py.truthy_list default from_option id].
  destruct (List.filter _ (c0 :: fc')) as [| x l] eqn:Hf; [by apply elem_of_nil in Hm |].
  reflexivity.
Qed.

(** C2. When a named feature list is loaded and the upload, once its [ID]
    column is taken out, lacks one of the listed columns, the request ends
    with the missing-features message; the model has not been called, no
    result has been written, the session is as it was, and the only file
    written is the upload itself. *)
Theorem missing_features_abort req file m tcols df fc st :
  parsed_upload E G req file m tcols df ->
  feature_cols G = Some fc ->
  (exists c, c ∈ fc /\ c ∉ pd.columns (pd.drop_columns ["ID"] df)) ->
  let missing :=
    List.filter
      (fun c => negb (bool_decide (c ∈ pd.columns (pd.drop_columns ["ID"] df)))) fc in
  let st' := snd (predict E G req st) in
  fst (predict E G req st) =
    predict_page ("❌ Missing features: " +:+ py_repr E (take 10 missing)
                    +:+ (if (10 <? length missing)%nat then "..." else "")) /\
  model_inputs (trace st') = model_inputs (trace st) /\
  written (trace st') = written (trace st) /\
  session st' = session st /\
  fs st' = <[upload_path E file := content file]> (fs st).
Proof.
  intros Hup Hfc Hmiss missing st'. subst st'.
  rewrite (predict_parsed_upload _ _ _ _ _ _ Hup), predict_parsed_eq.
  rewrite (align_missing m _ fc Hfc Hmiss). cbn [except_Exception fst snd].
  destruct (uploaded_log file st) as (H1 & H2 & H3).
  repeat split; auto.
Qed.

(** *** Selecting columns by name *)

Lemma filter_label_absent (c : string) (cs : list (string * list V)) :
  c ∉ cs.*1 -> List.filter (fun p => String.eqb (fst p) c) cs = [].
Proof.
  induction cs as [| [a col] cs IH]; [reflexivity |].
  cbn. intros Hnot. apply not_elem_of_cons in Hnot as [Hne Hnot].
  destruct (String.eqb_spec a c) as [-> | _]; [congruence | auto].
Qed.

Lemma filter_label_unique (c : string) (col : list V) (cs : list (string * list V)) :
  NoDup cs.*1 -> (c, col) ∈ cs ->
  List.filter (fun p => String.eqb (fst p) c) cs = [(c, col)].
Proof.
  induction cs as [| [a col'] cs IH]; intros Hnd Hin.
  - by apply elem_of_nil in Hin.
  - cbn in Hnd. apply NoDup_cons in Hnd as [Hfresh Hnd].
    apply elem_of_cons in Hin as [Heq | Hin]; cbn.
    + injection Heq as <- <-. rewrite String.eqb_refl.
      by rewrite filter_label_absent.
    + destruct (String.eqb_spec a c) as [-> | _].
      * exfalso. apply Hfresh. apply list_elem_of_fmap. by exists (c, col).
      * by apply IH.
Qed.

Lemma select_columns_labels (labels : list string) (cs : list (string * list V)) :
  NoDup cs.*1 -> (forall c, c ∈ labels -> c ∈ cs.*1) ->
  (pd.select_columns labels cs).*1 = labels.
Proof.
  intros Hnd. induction labels as [| c labels IH]; intros Hall; [reflexivity |].
  unfold pd.select_columns in *. cbn [flat_map]. rewrite fmap_app, IH.
  - destruct (proj1 (list_elem_of_fmap _ _ _) (Hall c (list_elem_of_here _ _)))
      as ([c' col] & Hc & Hin).
    cbn in Hc. subst c'. by rewrite (filter_label_unique c col cs Hnd Hin).
  - intros c' Hc'. apply Hall. by apply list_elem_of_further.
Qed.

Lemma select_columns_subset (labels : list string) (cs : list (string * list V)) p :
  p ∈ pd.select_columns labels cs -> p ∈ cs.
Proof.
  unfold pd.select_columns. rewrite list_elem_of_In, in_flat_map.
  intros (c & _ & Hp). apply filter_In in Hp as [Hp _]. by apply list_elem_of_In.
Qed.

Lemma drop_columns_subset (labels : list string) df p :
  p ∈ pd.cols (pd.drop_columns labels df) -> p ∈ pd.cols df.
Proof.
  cbn. rewrite !list_elem_of_In. intros Hp. by apply filter_In in Hp as [Hp _].
Qed.

Lemma drop_columns_gone (labels : list string) df c :
  c ∈ labels -> c ∉ pd.columns (pd.drop_columns labels df).
Proof.
  intros Hc Hin. unfold pd.columns in Hin.
  apply list_elem_of_fmap in Hin as ([c' col] & -> & Hp).
  cbn in Hp. apply list_elem_of_In, filter_In in Hp as [_ Hp].
  cbn in Hp. by rewrite bool_decide_eq_true_2 in Hp.
Qed.

Lemma drop_columns_NoDup (labels : list string) df :
  NoDup (pd.columns df) -> NoDup (pd.columns (pd.drop_columns labels df)).
Proof.
  unfold pd.columns. cbn. generalize (pd.cols df) as cs.
  induction cs as [| [a col] cs IH]; cbn; intros Hnd; [constructor |].
  apply NoDup_cons in Hnd as [Hfresh Hnd].
  destruct (negb _); cbn; [| by apply IH].
  apply NoDup_cons. split; [| by apply IH].
  intros Hin. apply Hfresh.
  apply list_elem_of_fmap in Hin as (p & -> & Hp).
  apply list_elem_of_fmap. exists p. split; [done |].
  apply list_elem_of_In. apply list_elem_of_In, filter_In in Hp as [Hp _]. done.
Qed.

Lemma nothing_missing (fc cs : list string) :
  (forall c, c ∈ fc -> c ∈ cs) ->
  List.filter (fun c => negb (bool_decide (c ∈ cs))) fc = [].
Proof.
  induction fc as [| c fc IH]; intros Hall; [reflexivity |].
  cbn. rewrite bool_decide_eq_true_2 by (apply Hall; left). cbn.
  apply IH. intros c' Hc'. apply Hall. by right.
Qed.

(** With a non-empty named schema that the upload covers, the feature
    check hands on the listed columns, in the listed order. *)
Lemma align_named m X fc :
  feature_cols G = Some fc -> fc <> [] ->
  (forall c, c ∈ fc -> c ∈ pd.columns X) ->
  align_features E G m X =
    Val {| pd.nrows := pd.nrows X; pd.cols := pd.select_columns fc (pd.cols X) |}.
Proof.
  intros Hfc Hne Hall. unfold align_features, pd.getitem_list. rewrite Hfc.
  destruct fc as [| c0 fc']; [congruence |].
  cbn [Py.truthy_list default from_option id].
  rewrite (nothing_missing _ _ Hall). reflexivity.
Qed.

(** Without a usable named schema the check compares counts, when the
    model has a non-zero [n_features_in_], and hands the table on as it
    is. *)
Lemma align_degraded m X :
  feature_cols G = None \/ feature_cols G = Some [] ->
  align_features E G m X =
    if Py.truthy_int (n_features_in_ m)
       && negb (pd.shape1 X =? default 0 (n_features_in_ m))
    then Return (predict_page
           ("❌ Model expects " +:+ pretty (default 0 (n_features_in_ m))
              +:+ " features, got " +:+ pretty (pd.shape1 X)))
    else Val X.
Proof. intros [H | H]; unfold align_features; rewrite H; reflexivity. Qed.

(** The feature check never hands on a column named [ID], and whatever
    it hands on has the rows of the upload. *)
Lemma align_features_no_ID m df X :
  align_features E G m (pd.drop_columns ["ID"] df) = Val X ->
  ("ID" ∉ pd.columns X) /\ pd.nrows X = pd.nrows df.
Proof.
  unfold align_features.
  destruct (Py.truthy_list (feature_cols G)).
  - destruct (Py.truthy_list (Some _)); [discriminate |].
    unfold pd.getitem_list.
    destruct (List.filter _ (default [] (feature_cols G))); [| discriminate].
    intros [= <-]. split; [| reflexivity].
    unfold pd.columns. cbn [pd.cols]. intros Hin.
    apply list_elem_of_fmap in Hin as ([c col] & Hc & Hp). cbn in Hc. subst c.
    apply select_columns_subset in Hp.
    apply (drop_columns_gone ["ID"] df "ID"); [by left |].
    apply list_elem_of_fmap. by exists ("ID", col).
  - destruct (andb _ _); [discriminate |]. intros [= <-].
    split; [| reflexivity]. apply drop_columns_gone. by left.
Qed.

(** C9. When the request reaches the call of the model on [X] and the call
    raises, the request ends with the error page carrying the text of the
    exception; nothing is written after the call, and the session is as it
    was. *)
Theorem model_error_caught req file m tcols df X payload st :
  parsed_upload E G req file m tcols df ->
  align_features E G m (pd.drop_columns ["ID"] df) = Val X ->
  model_predict m X = inl payload ->
  let st' := snd (predict E G req st) in
  fst (predict E G req st) = predict_page ("❌ Error: " +:+ py_str E (External payload)) /\
  model_inputs (trace st') = model_inputs (trace st) ++ [X] /\
  written (trace st') = written (trace st) /\
  session st' = session st /\
  fs st' = <[upload_path E file := content file]> (fs st).
Proof.
  intros Hup Hal Hraise st'. subst st'.
  rewrite (predict_parsed_upload _ _ _ _ _ _ Hup), predict_parsed_eq, Hal, Hraise.
  cbn [except_Exception fst snd].
  destruct (predicted_log X (uploaded E file st)) as (H1 & H2 & H3).
  destruct (uploaded_log file st) as (H4 & H5 & H6).
  repeat split; congruence.
Qed.

(** C3, as amended. When a non-empty named feature list is loaded and the
    upload (with distinct header labels, as the CSV reader returns them),
    once its [ID] column is taken out, has every listed column, the model
    is called once, on a table whose columns are the listed ones in the
    listed order; each carries the data the upload has under that name,
    and the other columns are left out. *)
Theorem columns_reordered req file m tcols df fc st :
  parsed_upload E G req file m tcols df ->
  NoDup (pd.columns df) ->
  feature_cols G = Some fc ->
  fc <> [] ->
  (forall c, c ∈ fc -> c ∈ pd.columns (pd.drop_columns ["ID"] df)) ->
  exists X,
    model_inputs (trace (snd (predict E G req st))) = model_inputs (trace st) ++ [X] /\
    pd.columns X = fc /\
    pd.nrows X = pd.nrows df /\
    (forall c col, (c, col) ∈ pd.cols X -> (c, col) ∈ pd.cols df).
Proof.
  intros Hup Hnd Hfc Hne Hall.
  set (X0 := pd.drop_columns ["ID"] df) in *.
  exists {| pd.nrows := pd.nrows X0; pd.cols := pd.select_columns fc (pd.cols X0) |}.
  split; [| split; [| split]].
  - rewrite (predict_parsed_upload _ _ _ _ _ _ Hup).
    rewrite (model_called_once req m tcols df _ _ (align_named m X0 fc Hfc Hne Hall)).
    by destruct (uploaded_log file st) as (-> & _).
  - unfold pd.columns at 1. cbn [pd.cols].
    apply select_columns_labels; [| exact Hall].
    apply (drop_columns_NoDup ["ID"] df Hnd).
  - reflexivity.
  - cbn [pd.cols]. intros c col Hin.
    apply select_columns_subset in Hin. by apply drop_columns_subset in Hin.
Qed.

(** The column found under a label of a table is a column of the table. *)
Lemma lookup_column_Some (c : string) (cs : list (string * list V)) col :
  pd.lookup_column c cs = Some col -> (c, col) ∈ cs.
Proof.
  unfold pd.lookup_column.
  destruct (List.find _ cs) as [[c' col'] |] eqn:Hfind; [| discriminate].
  cbn. intros [= <-]. apply find_some in Hfind as [Hin Heq].
  cbn in Heq. apply String.eqb_eq in Heq as ->. by apply list_elem_of_In.
Qed.

Lemma lookup_column_is_Some (c : string) (cs : list (string * list V)) :
  c ∈ cs.*1 -> is_Some (pd.lookup_column c cs).
Proof.
  unfold pd.lookup_column. induction cs as [| [a col] cs IH]; intros Hin.
  - by apply elem_of_nil in Hin.
  - cbn. destruct (String.eqb_spec a c) as [-> | Hne]; [by eexists |].
    apply IH. cbn in Hin. apply elem_of_cons in Hin as [Heq | Hin]; [congruence | done].
Qed.

Lemma from_array_columns (arr : pd.ndarray V) (labels : list string) T0 :
  pd.from_array arr labels = inr T0 ->
  pd.columns T0 = labels /\ pd.nrows T0 = pd.arr_rows arr.
Proof.
  unfold pd.from_array. case_bool_decide as Hlen; [| discriminate].
  intros [= <-]. split; [| reflexivity].
  unfold pd.columns. cbn [pd.cols]. apply fst_zip. lia.
Qed.

(** An upload with an [ID] column is stored with that column in front as
    soon as the feature check passes and the model answers with one row
    per identifier and one column per target, none of them named [ID]. *)
Lemma valid_upload_stored req file m tcols df X preds ids st :
  parsed_upload E G req file m tcols df ->
  align_features E G m (pd.drop_columns ["ID"] df) = Val X ->
  model_predict m X = inr preds ->
  length (pd.arr_cols preds) = length tcols ->
  pd.getitem "ID" df = Some ids ->
  "ID" ∈ pd.columns df ->
  "ID" ∉ tcols ->
  length ids = pd.arr_rows preds ->
  let T := {| pd.nrows := pd.arr_rows preds;
              pd.cols := ("ID", ids) :: zip tcols (pd.arr_cols preds) |} in
  fst (predict E G req st) = success_page E T /\
  written (trace (snd (predict E G req st))) =
    written (trace st) ++ [(result_path (now req), T)].
Proof.
  intros Hup Hal Hm Hshape Hids HID Hfresh Hrows T. subst T.
  rewrite (predict_parsed_upload _ _ _ _ _ _ Hup), predict_parsed_eq, Hal, Hm.
  unfold pd.from_array. rewrite (bool_decide_eq_true_2 _ Hshape).
  rewrite (bool_decide_eq_true_2 _ HID : pd.has_column "ID" df = true), Hids.
  cbn [attach_ids]. unfold pd.insert0, pd.has_column, pd.columns. cbn [pd.cols pd.nrows].
  rewrite fst_zip by lia.
  rewrite (bool_decide_eq_false_2 _ Hfresh), (bool_decide_eq_true_2 _ Hrows).
  cbn [except_Exception fst snd]. split; [reflexivity |].
  match goal with
  | |- written (trace (stored _ ?t ?T ?s)) = _ =>
      destruct (stored_log t T s) as (_ & -> & _)
  end.
  destruct (predicted_log X (uploaded E file st)) as (_ & -> & _).
  destruct (uploaded_log file st) as (_ & -> & _). reflexivity.
Qed.

(** C4. When an upload whose table has a column named [ID] (and distinct
    header labels, as the CSV reader returns them) leads to a stored
    result, the first column of the stored table is named [ID] and holds
    the upload's [ID] column, entry for entry; the remaining columns are
    the target columns, the row index has the length of that column, and
    the table given to the model had no [ID] column. *)
Theorem id_column_reattached req file m tcols df st path T :
  parsed_upload E G req file m tcols df ->
  NoDup (pd.columns df) ->
  "ID" ∈ pd.columns df ->
  written (trace (snd (predict E G req st))) = written (trace st) ++ [(path, T)] ->
  exists ids rest X,
    (("ID", ids) ∈ pd.cols df /\ pd.getitem "ID" df = Some ids) /\
    pd.cols T = ("ID", ids) :: rest /\
    rest.*1 = tcols /\
    length ids = pd.nrows T /\
    model_inputs (trace (snd (predict E G req st))) = model_inputs (trace st) ++ [X] /\
    "ID" ∉ pd.columns X.
Proof.
  intros Hup Hnd HID Hw.
  rewrite (predict_parsed_upload _ _ _ _ _ _ Hup), predict_parsed_eq in Hw |- *.
  destruct (uploaded_log file st) as (Hu1 & Hu2 & _).
  assert (Hstuck : forall st1 : State V,
             written (trace st1) = written (trace st) ->
             written (trace st1) <> written (trace st) ++ [(path, T)]).
  { intros st1 -> Heq. apply (f_equal length) in Heq.
    rewrite length_app in Heq. cbn in Heq. lia. }
  destruct (align_features E G m _) as [X | r | e] eqn:Hal;
    cbn [except_Exception snd] in Hw; try (by apply Hstuck in Hw).
  destruct (predicted_log X (uploaded E file st)) as (Hp1 & Hp2 & _).
  assert (Hp2' : written (trace (predicted X (uploaded E file st))) = written (trace st))
    by congruence.
  destruct (model_predict m X) as [payload | preds];
    cbn [except_Exception snd] in Hw; [by apply Hstuck in Hw |].
  destruct (pd.from_array preds tcols) as [e | T0] eqn:Harr;
    cbn [except_Exception snd] in Hw; [by apply Hstuck in Hw |].
  rewrite (bool_decide_eq_true_2 _ HID : pd.has_column "ID" df = true) in Hw |- *.
  destruct (lookup_column_is_Some "ID" (pd.cols df) HID) as [ids Hids].
  unfold pd.getitem in Hw |- *. rewrite Hids in Hw |- *. cbn [attach_ids] in Hw |- *.
  unfold pd.insert0 in Hw |- *.
  destruct (pd.has_column "ID" T0); cbn [except_Exception snd] in Hw;
    [by apply Hstuck in Hw |].
  case_bool_decide as Hlen; cbn [except_Exception snd] in Hw |- *;
    [| by apply Hstuck in Hw].
  destruct (stored_log (now req) {| pd.nrows := pd.nrows T0; pd.cols := ("ID", ids) :: pd.cols T0 |}
              (predicted X (uploaded E file st))) as (Hs1 & Hs2 & _).
  rewrite Hs2, Hp2' in Hw. apply app_inv_head in Hw. injection Hw as _ <-.
  exists ids, (pd.cols T0), X. cbn [pd.cols pd.nrows].
  destruct (from_array_columns _ _ _ Harr) as [Hcols _].
  destruct (align_features_no_ID m df X Hal) as [HnoID _].
  repeat split; auto.
  - by apply lookup_column_Some.
  - congruence.
Qed.

(** C8, as amended. In degraded mode (the named list is absent or empty)
    with a non-zero expected count [n]: an upload whose column count,
    once [ID] is taken out, is not [n] ends with the count-mismatch message
    naming both counts, before any model call; an upload with [n] columns
    goes to the model exactly as it is, columns in the order of the
    upload. *)
Theorem degraded_count_check req file m tcols df n st :
  parsed_upload E G req file m tcols df ->
  feature_cols G = None \/ feature_cols G = Some [] ->
  n_features_in_ m = Some n ->
  n <> 0 ->
  let X := pd.drop_columns ["ID"] df in
  let st' := snd (predict E G req st) in
  (pd.shape1 X <> n ->
     fst (predict E G req st) =
       predict_page ("❌ Model expects " +:+ pretty n +:+ " features, got "
                       +:+ pretty (pd.shape1 X)) /\
     model_inputs (trace st') = model_inputs (trace st) /\
     written (trace st') = written (trace st) /\
     session st' = session st) /\
  (pd.shape1 X = n ->
     model_inputs (trace st') = model_inputs (trace st) ++ [X]).
Proof.
  intros Hup Hdeg Hn Hnz X st'. subst st'.
  assert (Hal : align_features E G m X =
                if negb (pd.shape1 X =? n)
                then Return (predict_page
                       ("❌ Model expects " +:+ pretty n +:+ " features, got "
                          +:+ pretty (pd.shape1 X)))
                else Val X).
  { rewrite (align_degraded m X Hdeg), Hn.
    cbn [Py.truthy_int default from_option id].
    by rewrite (proj2 (Z.eqb_neq n 0) Hnz). }
  rewrite (predict_parsed_upload _ _ _ _ _ _ Hup).
  destruct (uploaded_log file st) as (Hu1 & Hu2 & Hu3).
  split.
  - intros Hne. rewrite (proj2 (Z.eqb_neq _ _) Hne) in Hal.
    rewrite predict_parsed_eq. fold X. rewrite Hal.
    cbn [negb except_Exception fst snd]. auto.
  - intros Heq. rewrite (proj2 (Z.eqb_eq _ _) Heq) in Hal.
    rewrite (model_called_once req m tcols df X _ Hal). by rewrite Hu1.
Qed.

(** *** What a prediction request can do to the session and the disk *)

(** The two ways the [try] block ends: without a stored result and with
    the session untouched, or with one table stored under the name built
    from the clock, the pointer set to that name, and the success page. *)
Lemma predict_try_cases req file m tcols st :
  let P := except_Exception E (predict_try E G req file m tcols st) in
  (session (snd P) = session st /\ written (trace (snd P)) = written (trace st)) \/
  (exists T,
     fst P = success_page E T /\
     written (trace (snd P)) = written (trace st) ++ [(result_path (now req), T)] /\
     session (snd P) = pointing_to (out_name (now req)) (session st)).
Proof.
  cbv zeta. rewrite predict_try_eq.
  destruct (uploaded_log file st) as (_ & Hu2 & Hu3).
  destruct (parse_csv E (content file)) as [payload | df];
    [left; cbn [except_Exception snd]; auto |].
  rewrite predict_parsed_eq.
  destruct (align_features E G m _) as [X | r | e];
    try (left; cbn [except_Exception snd]; by auto).
  destruct (predicted_log X (uploaded E file st)) as (_ & Hp2 & Hp3).
  destruct (model_predict m X) as [payload | preds];
    [left; cbn [except_Exception snd]; split; congruence |].
  destruct (pd.from_array preds tcols) as [e | T0];
    [left; cbn [except_Exception snd]; split; congruence |].
  destruct (attach_ids _ T0) as [e | T];
    [left; cbn [except_Exception snd]; split; congruence |].
  right. exists T. cbn [except_Exception fst snd].
  destruct (stored_log (now req) T (predicted X (uploaded E file st))) as (_ & Hs2 & _).
  split; [reflexivity |]. split; [congruence |].
  unfold stored, pointing_to. cbn [session]. rewrite Hp3, Hu3. reflexivity.
Qed.

Lemma predict_cases req st :
  let P := predict E G req st in
  (session (snd P) = session st /\ written (trace (snd P)) = written (trace st)) \/
  (exists T,
     fst P = success_page E T /\
     written (trace (snd P)) = written (trace st) ++ [(result_path (now req), T)] /\
     session (snd P) = pointing_to (out_name (now req)) (session st)).
Proof.
  cbv zeta. unfold predict.
  destruct (method req); try (left; by auto);
    (destruct (files_file req) as [file |]; [| left; by auto];
     destruct (orb _ _); [left; by auto |];
     destruct (model G) as [m |]; [| left; by auto];
     destruct (target_cols G) as [tcols |]; [| left; by auto];
     apply predict_try_cases).
Qed.

Lemma written_new_path req st path T :
  written (trace (snd (predict E G req st))) = written (trace st) ++ [(path, T)] ->
  path = result_path (now req) /\
  last_prediction_csv (session (snd (predict E G req st))) = Some (out_name (now req)).
Proof.
  intros Hw. destruct (predict_cases req st) as [[_ Hsame] | (T' & _ & Hw' & Hs)].
  - rewrite Hsame in Hw. apply (f_equal length) in Hw.
    rewrite length_app in Hw. cbn in Hw. lia.
  - rewrite Hw' in Hw. apply app_inv_head in Hw. injection Hw as <- _.
    rewrite Hs. auto.
Qed.

(** How far the name tells requests apart: two prediction requests that
    each store a result store it under the same path exactly when their
    clock readings agree from the year down to the second. *)
Theorem result_names_by_second req1 req2 st1 st2 p1 T1 p2 T2 :
  written (trace (snd (predict E G req1 st1))) = written (trace st1) ++ [(p1, T1)] ->
  written (trace (snd (predict E G req2 st2))) = written (trace st2) ++ [(p2, T2)] ->
  valid_datetime (now req1) ->
  valid_datetime (now req2) ->
  (p1 = p2 <-> to_second (now req1) = to_second (now req2)).
Proof.
  intros H1 H2 Hv1 Hv2.
  apply written_new_path in H1 as [-> _]. apply written_new_path in H2 as [-> _].
  split; [by apply result_path_inj | apply result_path_to_second].
Qed.

(** *** The routes and the pointer *)

Lemma signup_session req st : session (snd (signup E req st)) = session st.
Proof.
  unfold signup. destruct (method req); try reflexivity.
  destruct (form req !! "username"), (form req !! "email"), (form req !! "password");
    try reflexivity.
  destruct (generate_password_hash E _); [reflexivity |].
  destruct (users_insert E _ _ _ _); reflexivity.
Qed.

Lemma login_pointer req st :
  last_prediction_csv (session (snd (login E req st))) = last_prediction_csv (session st).
Proof.
  unfold login. destruct (method req); try reflexivity.
  destruct (form req !! "email"), (form req !! "password"); try reflexivity.
  destruct (users_select_eq_email E _ _) as [| [| u us]]; try reflexivity.
  destruct (check_password_hash E _ _) as [| []]; reflexivity.
Qed.

Lemma dashboard_state st : snd (dashboard G st) = st.
Proof.
  unfold dashboard. destruct (user_id (session st)); [| reflexivity].
  destruct (username (session st)); reflexivity.
Qed.

Lemma download_state st : snd (download st) = st.
Proof.
  unfold download. destruct (negb _); [reflexivity |].
  destruct (negb _); reflexivity.
Qed.

(** C7, as amended. A request leaves the session's pointer as it was,
    unless it is a prediction that stored a result, which sets the pointer
    to the name of that result, or a logout, which clears the session and
    the pointer with it. *)
Theorem pointer_frame r req st :
  let P := handle E G r req st in
  last_prediction_csv (session (snd P)) = last_prediction_csv (session st) \/
  (r = RPredict /\
   exists T,
     fst P = success_page E T /\
     written (trace (snd P)) = written (trace st) ++ [(result_path (now req), T)] /\
     last_prediction_csv (session (snd P)) = Some (out_name (now req))) \/
  (r = RLogout /\ last_prediction_csv (session (snd P)) = None).
Proof.
  cbv zeta. destruct r; cbn [handle]; unfold get_only.
  - left. by destruct (method req).
  - left. by rewrite signup_session.
  - left. apply login_pointer.
  - left. destruct (method req); rewrite ?dashboard_state; reflexivity.
  - destruct (method req);
      [right; right; by split | left; reflexivity | right; right; by split].
  - destruct (predict_cases req st) as [[Hs _] | (T & Hr & Hw & Hs)].
    + left. by rewrite Hs.
    + right. left. split; [reflexivity |]. exists T. rewrite Hs. auto.
  - left. destruct (method req); rewrite ?download_state; reflexivity.
Qed.

(** Every route keeps the pointer among the recorded ones. *)
Lemma handle_recorded r req st :
  recorded (session st) -> recorded (session (snd (handle E G r req st))).
Proof.
  intros Hrec. unfold recorded in *.
  destruct (pointer_frame r req st) as [Heq | [(_ & T & _ & _ & Hp) | [_ Hp]]].
  - by rewrite Heq.
  - right. by eexists.
  - by left.
Qed.

Lemma out_name_nonempty t : out_name t <> "".
Proof. discriminate. Qed.

(** C6. For a session with a pointer the application can have recorded:
    without a pointer, [/download] answers 400 with the no-predictions
    message; with a pointer whose file is not in the upload folder, it
    answers 404 with the file-not-found message. Neither changes the
    state. *)
Theorem download_distinguishes st :
  recorded (session st) ->
  (last_prediction_csv (session st) = None ->
     download st = (Body "❌ No predictions available." 400, st)) /\
  (forall name,
     last_prediction_csv (session st) = Some name ->
     fs st !! Py.path_join UPLOAD_FOLDER name = None ->
     download st = (Body "❌ Prediction file not found." 404, st)).
Proof.
  intros Hrec. split.
  - intros Hnone. unfold download. rewrite Hnone. reflexivity.
  - intros name Hsome Hgone. unfold download. rewrite Hsome.
    destruct Hrec as [Hnone | [t Ht]]; [congruence |].
    assert (name = out_name t) as -> by congruence.
    cbn [Py.truthy_str default from_option id].
    rewrite (bool_decide_eq_false_2 _ (out_name_nonempty t)). cbn [negb].
    rewrite Hgone.
    rewrite (bool_decide_eq_false_2 (is_Some None)) by (intros [? ?]; discriminate).
    reflexivity.
Qed.


End Pipeline.

(** Every route answers a request in the same way for a feature list
    that is loaded but empty and for an absent one. *)
Theorem empty_schema_as_absent {V} (E : Collaborators V) (m : option (Model V))
    (tcols : option (list string)) (r : Route) (req : Request) (st : State V) :
  handle E {| model := m; target_cols := tcols; feature_cols := Some [] |} r req st =
  handle E {| model := m; target_cols := tcols; feature_cols := None |} r req st.
Proof. destruct r; reflexivity. Qed.

(** C10. A feature list that is loaded but empty is treated as an absent
    one. The feature check is then the count-only one: no column is
    looked up by name, nothing is reported missing, nothing is reordered.
    An upload whose column count (once [ID] is taken out) differs from a
    non-zero expected count ends with the count-mismatch message and no
    model call; in every other case the model gets the upload's columns
    as they are. And every route answers every request as it does with
    no list at all. *)
Theorem empty_schema_falls_through {V} (E : Collaborators V) (G : Globals V)
    req file m tcols df (st : State V) :
  parsed_upload E G req file m tcols df ->
  feature_cols G = Some [] ->
  let X := pd.drop_columns ["ID"] df in
  let G_absent :=
    {| model := model G; target_cols := target_cols G; feature_cols := None |} in
  align_features E G m X =
    (if Py.truthy_int (n_features_in_ m)
        && negb (pd.shape1 X =? default 0 (n_features_in_ m))
     then Return (predict_page
            ("❌ Model expects " +:+ pretty (default 0 (n_features_in_ m))
               +:+ " features, got " +:+ pretty (pd.shape1 X)))
     else Val X) /\
  (forall n,
     n_features_in_ m = Some n -> n <> 0 -> pd.shape1 X <> n ->
     fst (predict E G req st) =
       predict_page ("❌ Model expects " +:+ pretty n +:+ " features, got "
                       +:+ pretty (pd.shape1 X)) /\
     model_inputs (trace (snd (predict E G req st))) = model_inputs (trace st) /\
     written (trace (snd (predict E G req st))) = written (trace st)) /\
  (n_features_in_ m = None \/ n_features_in_ m = Some 0 \/
   n_features_in_ m = Some (pd.shape1 X) ->
     model_inputs (trace (snd (predict E G req st))) = model_inputs (trace st) ++ [X]) /\
  (forall r req' st', handle E G r req' st' = handle E G_absent r req' st').
Proof.
  intros Hup Hfc X G_absent. subst X G_absent.
  assert (Hal := align_degraded E G m (pd.drop_columns ["ID"] df) (or_intror Hfc)).
  destruct (uploaded_log E file st) as (Hu1 & Hu2 & _).
  split; [exact Hal |]. split; [| split].
  - intros n Hn Hnz Hne.
    rewrite (predict_parsed_upload E G _ _ _ _ _ _ Hup), predict_parsed_eq.
    rewrite Hal, Hn. cbn [Py.truthy_int default from_option id].
    rewrite (proj2 (Z.eqb_neq n 0) Hnz), (proj2 (Z.eqb_neq _ _) Hne).
    cbn [negb andb except_Exception fst snd]. auto.
  - intros Hcount.
    rewrite (predict_parsed_upload E G _ _ _ _ _ _ Hup).
    rewrite (model_called_once E G req m tcols df (pd.drop_columns ["ID"] df));
      [by rewrite Hu1 |].
    rewrite Hal. destruct Hcount as [-> | [-> | ->]]; [reflexivity | reflexivity |].
    cbn [Py.truthy_int default from_option id]. rewrite Z.eqb_refl.
    cbn [negb]. by rewrite andb_false_r.
  - intros r req' st'. destruct G as [gm gt gf]. cbn in Hfc |- *.
    subst gf. apply empty_schema_as_absent.
Qed.

(** * The instance at work *)

Module DemoFacts.
Import Demo.

Example splitext_csv : Py.splitext "data/in.put.CSV" = ("data/in.put", ".CSV").
Proof. reflexivity. Qed.

Example splitext_hidden : Py.splitext "dir.d/.csv" = ("dir.d/.csv", "").
Proof. reflexivity. Qed.

Example strftime_t0 : strftime t0 = "20240309_070500".
Proof. reflexivity. Qed.

Lemma parsed_a G0 m :
  model G0 = Some m -> target_cols G0 = Some ["y"] ->
  parsed_upload E G0 req_a file_a m ["y"] upload_a.
Proof. intros Hm Ht. repeat split; try discriminate; try assumption; vm_compute; reflexivity. Qed.

Lemma parsed_b G0 m t :
  model G0 = Some m -> target_cols G0 = Some ["y"] ->
  parsed_upload E G0 (post file_b t) file_b m ["y"] upload_b.
Proof. intros Hm Ht. repeat split; try discriminate; try assumption; vm_compute; reflexivity. Qed.

Lemma parsed_c G0 m :
  model G0 = Some m -> target_cols G0 = Some ["y"] ->
  parsed_upload E G0 req_c file_c m ["y"] upload_c.
Proof. intros Hm Ht. repeat split; try discriminate; try assumption; vm_compute; reflexivity. Qed.

Lemma valid_t0 : valid_datetime t0.
Proof. unfold valid_datetime; cbn; lia. Qed.

Lemma valid_t1 : valid_datetime t1.
Proof. unfold valid_datetime; cbn; lia. Qed.

(** bcrypt raising outside a [try], and a POST to a GET-only route. *)
Example signup_empty_password :
  signup E (signup_form "") st0 = (Abort 500, st0).
Proof. vm_compute. reflexivity. Qed.

Example signup_stores_hash :
  fst (signup E (signup_form "pw") st0) = redirect "/login" /\
  row_password <$> users (snd (signup E (signup_form "pw") st0)) = ["$2b$pw"].
Proof. vm_compute. split; reflexivity. Qed.

Example login_on_unhashed_password :
  login E login_ada st_legacy = (Abort 500, st_legacy).
Proof. vm_compute. reflexivity. Qed.

Example logout_by_post :
  handle E G RLogout (signup_form "pw") st_pointer = (Abort 405, st_pointer).
Proof. reflexivity. Qed.

(** The two examples of the specification: the same rows with the feature
    columns in either order give the same table. *)
Example spec_example_in_order :
  written (trace (snd (predict E G req_a st0))) = [(result_path t0, table_y)].
Proof. vm_compute. reflexivity. Qed.

Example spec_example_swapped :
  written (trace (snd (predict E G req_b st0))) = [(result_path t0, table_y)].
Proof. vm_compute. reflexivity. Qed.

End DemoFacts.

Import Demo.


Lemma missing_features_abort_witness :
  let P := predict E G req_c st0 in
  fst P = predict_page "❌ Missing features: x2" /\
  model_inputs (trace (snd P)) = [] /\
  written (trace (snd P)) = [] /\
  session (snd P) = session st0 /\
  fs (snd P) = <["uploads/c.CSV" := "c"]> ∅.
Proof.
  apply (missing_features_abort E G req_c file_c adder ["y"] upload_c ["x1"; "x2"] st0).
  - apply DemoFacts.parsed_c; reflexivity.
  - reflexivity.
  - exists "x2". split; [compute_done | compute_done].
Defined.

(** C3 fails as stated: with the feature list loaded but empty, every
    upload covers it, and the model gets the upload's own columns, here
    [x2] before [x1], not the (empty) listed ones. *)
Lemma reorder_skipped_for_empty_list :
  feature_cols G_empty = Some [] /\
  pd.columns <$> model_inputs (trace (snd (predict E G_empty req_b st0))) = [["x2"; "x1"]] /\
  ["x2"; "x1"] <> default [] (feature_cols G_empty).
Proof. split; [reflexivity |]. split; [vm_compute; reflexivity | discriminate]. Qed.

Lemma columns_reordered_witness :
  exists X,
    model_inputs (trace (snd (predict E G req_b st0))) = model_inputs (trace st0) ++ [X] /\
    pd.columns X = ["x1"; "x2"] /\
    pd.nrows X = pd.nrows upload_b /\
    (forall c col, (c, col) ∈ pd.cols X -> (c, col) ∈ pd.cols upload_b).
Proof.
  apply (columns_reordered E G req_b file_b adder ["y"] upload_b ["x1"; "x2"] st0).
  - apply DemoFacts.parsed_b; reflexivity.
  - compute_done.
  - reflexivity.
  - discriminate.
  - apply Forall_forall. compute_done.
Defined.

Lemma id_column_reattached_witness :
  exists ids rest X,
    (("ID", ids) ∈ pd.cols upload_a /\ pd.getitem "ID" upload_a = Some ids) /\
    pd.cols table_y = ("ID", ids) :: rest /\
    rest.*1 = ["y"] /\
    length ids = pd.nrows table_y /\
    model_inputs (trace (snd (predict E G req_a st0))) = model_inputs (trace st0) ++ [X] /\
    "ID" ∉ pd.columns X.
Proof.
  apply (id_column_reattached E G req_a file_a adder ["y"] upload_a st0
           (result_path t0) table_y).
  - apply DemoFacts.parsed_a; reflexivity.
  - compute_done.
  - compute_done.
  - vm_compute. reflexivity.
Defined.

(** C5. The code at two requests within one second: two different
    uploads, handled one after the other at 07:05:00.000123 and
    07:05:00.900000, both succeed and are stored under the one name
    [predictions_20240309_070500.csv]; the timestamp that is there to
    tell results apart stops at the second. *)
Lemma same_second_same_name :
  req_a <> req_b_later /\
  let st1 := snd (predict E G req_a st0) in
  let st2 := snd (predict E G req_b_later st1) in
  fst <$> written (trace st1) = ["uploads/predictions_20240309_070500.csv"] /\
  fst <$> written (trace st2) =
    ["uploads/predictions_20240309_070500.csv"; "uploads/predictions_20240309_070500.csv"].
Proof.
  split.
  - intros H. apply (f_equal files_file) in H. discriminate H.
  - vm_compute. split; reflexivity.
Qed.

(** What the shared name costs: a second browser predicts within the
    same second, and the first browser's download now sends the second
    browser's table. *)
Lemma same_second_serves_other_table :
  let st1 := snd (predict E_plain G req_a st0) in
  let st2 := snd (predict E_plain G req_d_later (other_session st1)) in
  written (trace st2) =
    [("uploads/predictions_20240309_070500.csv", table_y);
     ("uploads/predictions_20240309_070500.csv", table_plain)] /\
  fst (download (back_to st1 st2)) =
    send_file "uploads/predictions_20240309_070500.csv" "text/csv"
      "predictions_20240309_070500.csv" /\
  fs st1 !! "uploads/predictions_20240309_070500.csv" = Some (to_csv E_plain table_y) /\
  fs st2 !! "uploads/predictions_20240309_070500.csv" = Some (to_csv E_plain table_plain) /\
  to_csv E_plain table_y <> to_csv E_plain table_plain.
Proof. vm_compute. repeat split; try reflexivity. discriminate. Qed.

Lemma empty_schema_falls_through_witness :
  (fst (predict E G_empty req_c st0) =
     predict_page "❌ Model expects 2 features, got 1" /\
   model_inputs (trace (snd (predict E G_empty req_c st0))) = [] /\
   written (trace (snd (predict E G_empty req_c st0))) = []) /\
  model_inputs (trace (snd (predict E G_empty req_b st0))) =
    [{| pd.nrows := 2; pd.cols := [("x2", [3; 5]); ("x1", [2; 5])] |}].
Proof.
  split.
  - apply (proj1 (proj2 (empty_schema_falls_through E G_empty req_c file_c adder ["y"]
                           upload_c st0
                           (DemoFacts.parsed_c G_empty adder eq_refl eq_refl) eq_refl))
             2 eq_refl ltac:(lia)).
    discriminate.
  - apply (proj1 (proj2 (proj2 (empty_schema_falls_through E G_empty req_b file_b adder
                                  ["y"] upload_b st0
                                  (DemoFacts.parsed_b G_empty adder t0 eq_refl eq_refl)
                                  eq_refl)))).
    right; right. reflexivity.
Defined.

Lemma result_names_by_second_witness :
  result_path t0 <> result_path t1.
Proof.
  intros Heq.
  apply (result_names_by_second E G req_a req_b_next st0 st0
           (result_path t0) table_y (result_path t1) table_y) in Heq.
  - discriminate Heq.
  - vm_compute. reflexivity.
  - vm_compute. reflexivity.
  - exact DemoFacts.valid_t0.
  - exact DemoFacts.valid_t1.
Defined.

Lemma download_distinguishes_witness :
  download st0 = (Body "❌ No predictions available." 400, st0) /\
  download st_pointer = (Body "❌ Prediction file not found." 404, st_pointer).
Proof.
  split.
  - apply (proj1 (download_distinguishes st0 (or_introl eq_refl))). reflexivity.
  - apply (proj2 (download_distinguishes st_pointer
                    (or_intror (ex_intro _ t0 eq_refl))) (out_name t0));
      reflexivity.
Defined.

(** C7 fails as stated: [/logout] is not a prediction, and it removes the
    pointer. *)
Lemma logout_clears_pointer :
  last_prediction_csv (session st_pointer) = Some "predictions_20240309_070500.csv" /\
  last_prediction_csv (session (snd (handle E G RLogout get st_pointer))) = None.
Proof. split; reflexivity. Qed.

(** C8 fails as stated: with no feature list and an expected count of
    zero, an upload with two feature columns is not refused; the model is
    called on it and the result is stored. *)
Lemma zero_count_not_checked :
  feature_cols G_zero = None /\
  (n_features_in_ <$> model G_zero) = Some (Some 0) /\
  pd.shape1 (pd.drop_columns ["ID"] upload_a) = 2 /\
  model_inputs (trace (snd (predict E G_zero req_a st0))) =
    [pd.drop_columns ["ID"] upload_a] /\
  fst (predict E G_zero req_a st0) = success_page E table_zero.
Proof. vm_compute. repeat split; reflexivity. Qed.

Lemma degraded_count_check_witness :
  (fst (predict E G_degraded req_c st0) =
     predict_page "❌ Model expects 2 features, got 1" /\
   model_inputs (trace (snd (predict E G_degraded req_c st0))) = [] /\
   written (trace (snd (predict E G_degraded req_c st0))) = [] /\
   session (snd (predict E G_degraded req_c st0)) = session st0) /\
  model_inputs (trace (snd (predict E G_degraded req_b st0))) =
    [{| pd.nrows := 2; pd.cols := [("x2", [3; 5]); ("x1", [2; 5])] |}].
Proof.
  split.
  - apply (proj1 (degraded_count_check E G_degraded req_c file_c adder ["y"] upload_c 2 st0
                    (DemoFacts.parsed_c G_degraded adder eq_refl eq_refl)
                    (or_introl eq_refl) eq_refl ltac:(lia))).
    discriminate.
  - apply (proj2 (degraded_count_check E G_degraded req_b file_b adder ["y"] upload_b 2 st0
                    (DemoFacts.parsed_b G_degraded adder t0 eq_refl eq_refl)
                    (or_introl eq_refl) eq_refl ltac:(lia))).
    reflexivity.
Defined.

Lemma model_error_caught_witness :
  let st' := snd (predict E G_failing req_a st0) in
  fst (predict E G_failing req_a st0) =
    predict_page "❌ Error: could not convert string to float" /\
  model_inputs (trace st') =
    model_inputs (trace st0) ++ [{| pd.nrows := 2; pd.cols := [("x1", [2; 5]); ("x2", [3; 5])] |}] /\
  written (trace st') = written (trace st0) /\
  session st' = session st0 /\
  fs st' = <["uploads/a.csv" := "a"]> ∅.
Proof.
  apply (model_error_caught E G_failing req_a file_a
           {| model_predict := failing_model; n_features_in_ := Some 2 |} ["y"] upload_a
           {| pd.nrows := 2; pd.cols := [("x1", [2; 5]); ("x2", [3; 5])] |}
           "could not convert string to float" st0).
  - apply DemoFacts.parsed_a; reflexivity.
  - vm_compute. reflexivity.
  - reflexivity.
Defined.

(** * Further properties of the routes *)

Section Further.
Context {V : Type}.
Variable E : Collaborators V.
Variable G : Globals V.

Implicit Types (st : State V) (df X T : pd.DataFrame V) (m : Model V).

(** ** [/predict] *)

Lemma accepted_upload_try req file m tcols st :
  accepted_upload G req file m tcols ->
  predict E G req st = except_Exception E (predict_try E G req file m tcols st).
Proof.
  intros (Hm & Hf & Hn & Ha & HM & HT).
  unfold predict. rewrite Hf, Ha, HM, HT.
  rewrite bool_decide_eq_false_2 by exact Hn. cbn [orb negb].
  destruct (method req); [congruence | reflexivity | reflexivity].
Qed.

(** A request is either answered at once, with the state as it is (the
    bare page for a GET, one of three refusals otherwise), or accepted
    into the [try] block. *)
Lemma predict_closed_or_accepted req st :
  predict E G req st = (render_template_string "predict.html" NoContext, st) \/
  (exists msg,
     msg ∈ ["❌ No file uploaded."; "❌ Invalid file."; "❌ Model not loaded."] /\
     predict E G req st = (predict_page msg, st)) \/
  (exists file m tcols, accepted_upload G req file m tcols).
Proof.
  unfold predict, accepted_upload.
  destruct (method req) eqn:Hm; [by left | |];
    (right;
     destruct (files_file req) as [file |] eqn:Hf;
       [| left; eexists; split; [| reflexivity]; set_solver];
     destruct (decide (filename file = "")) as [He | He];
       [rewrite (bool_decide_eq_true_2 _ He);
        left; eexists; split; [| reflexivity]; set_solver |];
     rewrite (bool_decide_eq_false_2 _ He); cbn [orb];
     destruct (allowed_file (filename file)) eqn:Ha;
       [| left; eexists; split; [| reflexivity]; set_solver];
     cbn [negb];
     destruct (model G) as [m |] eqn:HM;
       [| left; eexists; split; [| reflexivity]; set_solver];
     destruct (target_cols G) as [tcols |] eqn:HT;
       [| left; eexists; split; [| reflexivity]; set_solver];
     right; exists file, m, tcols; repeat split; auto; discriminate).
Qed.

(** Every way the feature check can return early is a message on the
    prediction page. *)
Lemma align_features_return m X r :
  align_features E G m X = Return r -> exists msg, r = predict_page msg.
Proof.
  unfold align_features.
  destruct (Py.truthy_list (feature_cols G)).
  - destruct (Py.truthy_list (Some _)); [intros [= <-]; by eexists |].
    destruct (pd.getitem_list _ X); discriminate.
  - destruct (andb _ _); [intros [= <-]; by eexists | discriminate].
Qed.

(** The end of an accepted request, exit by exit: the parser refuses; the
    feature check returns a page or raises; the model, the result frame
    or the identifier column raises after the model call; or the result
    is stored. *)
Lemma predict_accepted_exits req file m tcols st :
  accepted_upload G req file m tcols ->
  (exists msg, predict E G req st = (predict_page msg, uploaded E file st)) \/
  (exists msg X,
     predict E G req st = (predict_page msg, predicted X (uploaded E file st))) \/
  (exists X T,
     predict E G req st =
       (success_page E T, stored E (now req) T (predicted X (uploaded E file st)))).
Proof.
  intros Hacc. rewrite (accepted_upload_try _ _ _ _ _ Hacc), predict_try_eq.
  destruct (parse_csv E (content file)) as [payload | df];
    [left; by eexists |].
  rewrite predict_parsed_eq.
  destruct (align_features E G m _) as [X | r | e] eqn:Hal.
  - destruct (model_predict m X) as [payload | preds];
      [right; left; by do 2 eexists |].
    destruct (pd.from_array preds tcols) as [e | T0];
      [right; left; by do 2 eexists |].
    destruct (attach_ids _ T0) as [e | T];
      [right; left; by do 2 eexists |].
    right; right. by exists X, T.
  - apply align_features_return in Hal as [msg ->]. left. by exists msg.
  - left. by eexists.
Qed.


(** X2. A request changes the state exactly when it is accepted into the
    [try] block: a GET, a request without a file, with a refused file
    name, or with the model or target list not loaded touches neither the
    disk nor the session; an accepted one at least saves the upload. *)
Theorem predict_touches_state_iff_accepted req st :
  snd (predict E G req st) <> st <->
  exists file m tcols, accepted_upload G req file m tcols.
Proof.
  split.
  - intros Hch.
    destruct (predict_closed_or_accepted req st) as [Heq | [(msg & _ & Heq) | Hacc]];
      [rewrite Heq in Hch; by destruct Hch .. | exact Hacc].
  - intros (file & m & tcols & Hacc) Heq.
    assert (Hlen : (length (trace st) < length (trace (snd (predict E G req st))))%nat).
    { destruct (predict_accepted_exits req file m tcols st Hacc)
        as [(msg & ->) | [(msg & X & ->) | (X & T & ->)]];
        cbn [snd stored predicted uploaded trace]; rewrite ?length_app; cbn; lia. }
    rewrite Heq in Hlen. lia.
Qed.

(** X3. The effects of one request, in order: nothing; or the upload saved
    and read back; then at most one call of the model; then, only after
    that call, at most one result written, under the name built from the
    clock. *)
Theorem predict_effects_in_order req st :
  exists new,
    trace (snd (predict E G req st)) = trace st ++ new /\
    (new = [] \/
     exists file,
       files_file req = Some file /\
       (new = [EvSave (upload_path E file); EvReadCsv (upload_path E file)] \/
        (exists X,
           new = [EvSave (upload_path E file); EvReadCsv (upload_path E file);
                  EvPredict X]) \/
        (exists X T,
           new = [EvSave (upload_path E file); EvReadCsv (upload_path E file);
                  EvPredict X; EvToCsv (result_path (now req)) T]))).
Proof.
  destruct (predict_closed_or_accepted req st)
    as [-> | [(msg & _ & ->) | (file & m & tcols & Hacc)]];
    [exists []; rewrite app_nil_r; by auto .. |].
  pose proof Hacc as (_ & Hf & _).
  destruct (predict_accepted_exits req file m tcols st Hacc)
    as [(msg & ->) | [(msg & X & ->) | (X & T & ->)]];
    eexists; (split; [cbn [snd stored predicted uploaded trace];
                      rewrite <- ?app_assoc; cbn [app]; reflexivity |]);
    right; exists file; (split; [exact Hf |]).
  - by left.
  - right; left. by exists X.
  - right; right. by exists X, T.
Qed.

(** X4. [/predict] writes at two places at most: the path of the upload
    and the path of the result. Every other file is as it was. *)
Theorem predict_fs_frame req st path :
  (forall file, files_file req = Some file -> path <> upload_path E file) ->
  path <> result_path (now req) ->
  fs (snd (predict E G req st)) !! path = fs st !! path.
Proof.
  intros Hup Hres.
  destruct (predict_closed_or_accepted req st)
    as [-> | [(msg & _ & ->) | (file & m & tcols & Hacc)]]; [reflexivity .. |].
  pose proof Hacc as (_ & Hf & _). specialize (Hup file Hf).
  destruct (predict_accepted_exits req file m tcols st Hacc)
    as [(msg & ->) | [(msg & X & ->) | (X & T & ->)]];
    cbn [snd stored predicted uploaded fs];
    rewrite ?(lookup_insert_ne _ (result_path (now req)) path) by congruence;
    by rewrite lookup_insert_ne by congruence.
Qed.

(** X5. The upload of an accepted request is never cleaned up: whatever
    the outcome, its content is on disk afterwards under the sanitised
    name, unless the result of this very request was written to the same
    path. *)
Theorem upload_is_kept req file m tcols st :
  accepted_upload G req file m tcols ->
  fs (snd (predict E G req st)) !! upload_path E file = Some (content file) \/
  (upload_path E file = result_path (now req) /\
   exists T, fs (snd (predict E G req st)) !! upload_path E file = Some (to_csv E T)).
Proof.
  intros Hacc.
  destruct (predict_accepted_exits req file m tcols st Hacc)
    as [(msg & ->) | [(msg & X & ->) | (X & T & ->)]];
    cbn [snd stored predicted uploaded fs].
  - left. apply lookup_insert_eq.
  - left. apply lookup_insert_eq.
  - destruct (decide (upload_path E file = result_path (now req))) as [Heq | Hne].
    + right. split; [exact Heq |]. exists T. rewrite Heq. apply lookup_insert_eq.
    + left. rewrite lookup_insert_ne by congruence. apply lookup_insert_eq.
Qed.

(** X6. A file the parser refuses: the request ends with the error page
    carrying the parser's message; the upload stays on disk, the model is
    not called and nothing else is written. *)
Theorem parse_error_reported req file m tcols payload st :
  accepted_upload G req file m tcols ->
  parse_csv E (content file) = inl payload ->
  predict E G req st =
    (predict_page ("❌ Error: " +:+ py_str E (External payload)), uploaded E file st).
Proof.
  intros Hacc Hparse.
  by rewrite (accepted_upload_try _ _ _ _ _ Hacc), predict_try_eq, Hparse.
Qed.

(** The outcome of the [try] block read off the upload alone: the answer
    and the table stored, if any, do not depend on the state or the
    clock. *)
Lemma predict_try_outcome file m tcols :
  exists resp oT,
    (forall req' st',
       fst (except_Exception E (predict_try E G req' file m tcols st')) = resp /\
       written (trace (snd (except_Exception E (predict_try E G req' file m tcols st')))) =
         written (trace st') ++
         match oT with Some T => [(result_path (now req'), T)] | None => [] end).
Proof.
  destruct (parse_csv E (content file)) as [payload | df] eqn:Hparse.
  { exists (predict_page ("❌ Error: " +:+ py_str E (External payload))), None.
    intros req' st'. rewrite predict_try_eq, Hparse. cbn [except_Exception fst snd].
    destruct (uploaded_log E file st') as (_ & -> & _). by rewrite app_nil_r. }
  destruct (align_features E G m (pd.drop_columns ["ID"] df)) as [X | r | e] eqn:Hal.
  2:{ exists r, None. intros req' st'.
      rewrite predict_try_eq, Hparse, predict_parsed_eq, Hal.
      cbn [except_Exception fst snd].
      destruct (uploaded_log E file st') as (_ & -> & _). by rewrite app_nil_r. }
  2:{ exists (predict_page ("❌ Error: " +:+ py_str E e)), None. intros req' st'.
      rewrite predict_try_eq, Hparse, predict_parsed_eq, Hal.
      cbn [except_Exception fst snd].
      destruct (uploaded_log E file st') as (_ & -> & _). by rewrite app_nil_r. }
  assert (Hfail : forall st',
             written (trace (predicted X (uploaded E file st'))) =
             written (trace st') ++ []).
  { intros st'. destruct (predicted_log X (uploaded E file st')) as (_ & -> & _).
    destruct (uploaded_log E file st') as (_ & -> & _). by rewrite app_nil_r. }
  destruct (model_predict m X) as [payload | preds] eqn:Hm.
  { exists (predict_page ("❌ Error: " +:+ py_str E (External payload))), None.
    intros req' st'. rewrite predict_try_eq, Hparse, predict_parsed_eq, Hal, Hm.
    cbn [except_Exception fst snd]. split; [reflexivity | by apply Hfail]. }
  destruct (pd.from_array preds tcols) as [e | T0] eqn:Harr.
  { exists (predict_page ("❌ Error: " +:+ py_str E e)), None.
    intros req' st'. rewrite predict_try_eq, Hparse, predict_parsed_eq, Hal, Hm, Harr.
    cbn [except_Exception fst snd]. split; [reflexivity | by apply Hfail]. }
  destruct (attach_ids (if pd.has_column "ID" df then pd.getitem "ID" df else None) T0)
    as [e | T] eqn:Hatt.
  { exists (predict_page ("❌ Error: " +:+ py_str E e)), None.
    intros req' st'.
    rewrite predict_try_eq, Hparse, predict_parsed_eq, Hal, Hm, Harr, Hatt.
    cbn [except_Exception fst snd]. split; [reflexivity | by apply Hfail]. }
  exists (success_page E T), (Some T). intros req' st'.
  rewrite predict_try_eq, Hparse, predict_parsed_eq, Hal, Hm, Harr, Hatt.
  cbn [except_Exception fst snd]. split; [reflexivity |].
  destruct (stored_log E (now req') T (predicted X (uploaded E file st'))) as (_ & -> & _).
  by rewrite (Hfail st'), app_nil_r.
Qed.

(** X7. What [/predict] answers, and the table it stores, depend on the
    method and the upload only: two requests with the same method and the
    same file get the same answer and store the same table, whatever the
    session, the files on disk and the clock are. Predicting an upload
    twice gives the same table twice. *)
Theorem predict_depends_on_upload_only req1 req2 st1 st2 :
  method req1 = method req2 ->
  files_file req1 = files_file req2 ->
  fst (predict E G req1 st1) = fst (predict E G req2 st2) /\
  (forall p1 T1 p2 T2,
     written (trace (snd (predict E G req1 st1))) = written (trace st1) ++ [(p1, T1)] ->
     written (trace (snd (predict E G req2 st2))) = written (trace st2) ++ [(p2, T2)] ->
     T1 = T2).
Proof.
  intros Hmeth Hfile. unfold predict. rewrite Hmeth, Hfile.
  assert (Hno : forall (tr : list (Event V)) p T,
             written tr <> written tr ++ [(p, T)]).
  { intros tr p T Heq. apply (f_equal length) in Heq.
    rewrite length_app in Heq. cbn in Heq. lia. }
  destruct (method req2); [split; [reflexivity | intros ? ? ? ? H; by apply Hno in H] | |];
    (destruct (files_file req2) as [file |];
       [| split; [reflexivity | intros ? ? ? ? H; by apply Hno in H]];
     destruct (orb _ _);
       [split; [reflexivity | intros ? ? ? ? H; by apply Hno in H] |];
     destruct (model G) as [m |];
       [| split; [reflexivity | intros ? ? ? ? H; by apply Hno in H]];
     destruct (target_cols G) as [tcols |];
       [| split; [reflexivity | intros ? ? ? ? H; by apply Hno in H]];
     destruct (predict_try_outcome file m tcols) as (resp & oT & Hout);
     destruct (Hout req1 st1) as [Hr1 Hw1], (Hout req2 st2) as [Hr2 Hw2];
     split; [congruence |];
     intros p1 T1 p2 T2 H1 H2; rewrite Hw1 in H1; rewrite Hw2 in H2;
     apply app_inv_head in H1, H2; destruct oT; [congruence | discriminate]).
Qed.

(** The state a request leaves when it stores a result. *)
Lemma predict_stored_state req st path T :
  written (trace (snd (predict E G req st))) = written (trace st) ++ [(path, T)] ->
  exists file X,
    predict E G req st =
      (success_page E T, stored E (now req) T (predicted X (uploaded E file st))) /\
    path = result_path (now req).
Proof.
  intros Hw.
  assert (Hno : forall st1 : State V,
             written (trace st1) = written (trace st) ->
             written (trace st1) <> written (trace st) ++ [(path, T)]).
  { intros st1 -> Heq. apply (f_equal length) in Heq.
    rewrite length_app in Heq. cbn in Heq. lia. }
  destruct (predict_closed_or_accepted req st)
    as [Heq | [(msg & _ & Heq) | (file & m & tcols & Hacc)]];
    [rewrite Heq in Hw; by apply Hno in Hw .. |].
  destruct (predict_accepted_exits req file m tcols st Hacc)
    as [(msg & Heq) | [(msg & X & Heq) | (X & T' & Heq)]]; rewrite Heq in Hw |- *;
    cbn [snd] in Hw.
  - apply Hno in Hw; [done |]. by destruct (uploaded_log E file st) as (_ & -> & _).
  - apply Hno in Hw; [done |].
    destruct (predicted_log X (uploaded E file st)) as (_ & -> & _).
    by destruct (uploaded_log E file st) as (_ & -> & _).
  - destruct (stored_log E (now req) T' (predicted X (uploaded E file st))) as (_ & Hs & _).
    rewrite Hs in Hw.
    destruct (predicted_log X (uploaded E file st)) as (_ & Hp & _). rewrite Hp in Hw.
    destruct (uploaded_log E file st) as (_ & Hu & _). rewrite Hu in Hw.
    apply app_inv_head in Hw. injection Hw as <- <-. by exists file, X.
Qed.

(** X8. From prediction to download: right after a request that stored a
    table, [/download] in the same session sends the file of that request,
    as [text/csv] and under its stored name, and the file holds the CSV
    text of that table. *)
Theorem download_after_predict req st path T :
  written (trace (snd (predict E G req st))) = written (trace st) ++ [(path, T)] ->
  let st' := snd (predict E G req st) in
  download st' = (send_file (result_path (now req)) "text/csv" (out_name (now req)), st') /\
  fs st' !! result_path (now req) = Some (to_csv E T).
Proof.
  intros Hw. destruct (predict_stored_state req st path T Hw) as (file & X & -> & _).
  cbn [snd]. unfold download. cbn [stored session last_prediction_csv fs].
  cbn [Py.truthy_str default from_option id].
  rewrite (bool_decide_eq_false_2 _ (out_name_nonempty (now req))). cbn [negb].
  change (Py.path_join UPLOAD_FOLDER (out_name (now req))) with (result_path (now req)).
  rewrite lookup_insert_eq.
  rewrite (bool_decide_eq_true_2 (is_Some (Some _))) by (by eexists).
  split; reflexivity.
Qed.

(** ** The session routes *)

(** X9. Logging out does not delete results, it only forgets them: after
    a stored prediction and a logout, [/download] answers 400 as for a
    session that never predicted, [/dashboard] sends the caller to the
    login page, and the result file is still on disk. *)
Theorem logout_orphans_result req st path T :
  written (trace (snd (predict E G req st))) = written (trace st) ++ [(path, T)] ->
  let st' := snd (logout (snd (predict E G req st))) in
  download st' = (Body "❌ No predictions available." 400, st') /\
  fst (dashboard G st') = redirect "/login" /\
  fs st' !! result_path (now req) = Some (to_csv E T).
Proof.
  intros Hw. destruct (predict_stored_state req st path T Hw) as (file & X & -> & _).
  cbn [snd logout stored fs]. repeat split. apply lookup_insert_eq.
Qed.

(** X10. [/login] changes the session only when it succeeds: either the
    first row the store returns for the e-mail passes the password check,
    the answer is the redirect to the dashboard and the two login keys
    are those of that row (the pointer, the disk and the user table are
    kept); or the answer is something else and the state is as it was.
    When the password check itself raises on that row, the answer is
    500. *)
Theorem login_changes_only_on_success req st :
  ((exists email password u rest,
      method req = POST /\
      form req !! "email" = Some email /\
      form req !! "password" = Some password /\
      users_select_eq_email E (users st) email = inr (u :: rest) /\
      check_password_hash E (row_password u) password = inr true /\
      login E req st =
        (redirect "/dashboard",
         {| session := signed_in (Some (row_id u)) (Some (row_username u)) (session st);
            fs := fs st; users := users st; trace := trace st |})) \/
   (fst (login E req st) <> redirect "/dashboard" /\ snd (login E req st) = st)) /\
  (forall email password u rest payload,
     method req = POST ->
     form req !! "email" = Some email ->
     form req !! "password" = Some password ->
     users_select_eq_email E (users st) email = inr (u :: rest) ->
     check_password_hash E (row_password u) password = inl payload ->
     login E req st = (Abort 500, st)).
Proof.
  split.
  - unfold login.
    destruct (method req) eqn:Hm; try (right; by split).
    destruct (form req !! "email") as [email |] eqn:He; [| right; by split].
    destruct (form req !! "password") as [password |] eqn:Hp; [| right; by split].
    destruct (users_select_eq_email E (users st) email) as [err | [| u rest]] eqn:Hsel;
      try (right; by split).
    destruct (check_password_hash E (row_password u) password) as [err | []] eqn:Hck;
      try (right; by split).
    left. exists email, password, u, rest. by repeat split.
  - intros email password u rest payload Hm He Hp Hsel Hck.
    unfold login. by rewrite Hm, He, Hp, Hsel, Hck.
Qed.

(** X11. [/signup] never logs anybody in and changes the user table only
    when it succeeds: either every field is there, bcrypt hashes the
    password, the store accepts the row, the answer is the redirect to
    the login page and the table is what the store returned for the name,
    the e-mail and the hash; or the answer is something else and the
    state is as it was. When bcrypt raises on the password, the answer is
    500 and the store is not called. *)
Theorem signup_changes_only_on_success req st :
  ((exists name email password password_hash users',
      method req = POST /\
      form req !! "username" = Some name /\
      form req !! "email" = Some email /\
      form req !! "password" = Some password /\
      generate_password_hash E password = inr password_hash /\
      users_insert E (users st) name email password_hash = inr users' /\
      signup E req st =
        (redirect "/login",
         {| session := session st; fs := fs st; users := users'; trace := trace st |})) \/
   (fst (signup E req st) <> redirect "/login" /\ snd (signup E req st) = st)) /\
  (forall name email password payload,
     method req = POST ->
     form req !! "username" = Some name ->
     form req !! "email" = Some email ->
     form req !! "password" = Some password ->
     generate_password_hash E password = inl payload ->
     signup E req st = (Abort 500, st)).
Proof.
  split.
  - unfold signup.
    destruct (method req) eqn:Hm; try (right; by split).
    destruct (form req !! "username") as [name |] eqn:Hn; [| right; by split].
    destruct (form req !! "email") as [email |] eqn:He; [| right; by split].
    destruct (form req !! "password") as [password |] eqn:Hp; [| right; by split].
    destruct (generate_password_hash E password) as [err | password_hash] eqn:Hh;
      [right; by split |].
    destruct (users_insert E (users st) name email password_hash)
      as [err | users'] eqn:Hins; [right; by split |].
    left. exists name, email, password, password_hash, users'. by repeat split.
  - intros name email password payload Hm Hn He Hp Hh.
    unfold signup. by rewrite Hm, Hn, He, Hp, Hh.
Qed.

(** Which route can change which part of the state. *)
Lemma signup_keeps req st :
  session (snd (signup E req st)) = session st /\
  fs (snd (signup E req st)) = fs st /\
  trace (snd (signup E req st)) = trace st.
Proof.
  unfold signup. destruct (method req); try by auto.
  destruct (form req !! "username"), (form req !! "email"), (form req !! "password");
    try by auto.
  destruct (generate_password_hash E _); [by auto |].
  destruct (users_insert E _ _ _ _); by auto.
Qed.

Lemma login_keeps req st :
  fs (snd (login E req st)) = fs st /\
  trace (snd (login E req st)) = trace st /\
  users (snd (login E req st)) = users st.
Proof.
  unfold login. destruct (method req); try by auto.
  destruct (form req !! "email"), (form req !! "password"); try by auto.
  destruct (users_select_eq_email E _ _) as [| [| u us]]; try by auto.
  destruct (check_password_hash E _ _) as [| []]; by auto.
Qed.

Lemma predict_keeps_login_and_users req st :
  user_id (session (snd (predict E G req st))) = user_id (session st) /\
  username (session (snd (predict E G req st))) = username (session st) /\
  users (snd (predict E G req st)) = users st.
Proof.
  destruct (predict_closed_or_accepted req st)
    as [-> | [(msg & _ & ->) | (file & m & tcols & Hacc)]]; [by auto .. |].
  destruct (predict_accepted_exits req file m tcols st Hacc)
    as [(msg & ->) | [(msg & X & ->) | (X & T & ->)]]; by auto.
Qed.

(** X12. The frame of the seven routes: only [/predict] writes files or
    causes effects; only [/signup] changes the user table; only [/login]
    and [/logout] change who is logged in. *)
Theorem handle_frame r req st :
  let st' := snd (handle E G r req st) in
  (r <> RPredict -> fs st' = fs st /\ trace st' = trace st) /\
  (r <> RSignup -> users st' = users st) /\
  (r <> RLogin -> r <> RLogout ->
     user_id (session st') = user_id (session st) /\
     username (session st') = username (session st)).
Proof.
  cbv zeta.
  destruct (signup_keeps req st) as (Hs1 & Hs2 & Hs3).
  destruct (login_keeps req st) as (Hl1 & Hl2 & Hl3).
  destruct (predict_keeps_login_and_users req st) as (Hp1 & Hp2 & Hp3).
  destruct r; cbn [handle]; unfold get_only; destruct (method req);
    rewrite ?dashboard_state, ?download_state;
    repeat split; intros; try congruence; try reflexivity; auto.
Qed.

(** ** Sessions over several requests *)

Lemma handle_named_user r req st :
  named_user (session st) -> named_user (session (snd (handle E G r req st))).
Proof.
  unfold named_user. intros Hst.
  destruct r; cbn [handle]; unfold get_only.
  - by destruct (method req).
  - by destruct (signup_keeps req st) as (-> & _).
  - unfold login. destruct (method req); try exact Hst.
    destruct (form req !! "email"), (form req !! "password"); try exact Hst.
    destruct (users_select_eq_email E _ _) as [| [| u us]]; try exact Hst.
    destruct (check_password_hash E _ _) as [| []]; try exact Hst. by eexists.
  - destruct (method req); rewrite ?dashboard_state; exact Hst.
  - destruct (method req); [| exact Hst |]; cbn; by intros [? ?].
  - by destruct (predict_keeps_login_and_users req st) as (-> & -> & _).
  - destruct (method req); rewrite ?download_state; exact Hst.
Qed.

Lemma serve_invariants reqs st :
  named_user (session st) -> recorded (session st) ->
  named_user (session (serve E G reqs st)) /\ recorded (session (serve E G reqs st)).
Proof.
  revert st. induction reqs as [| [r req] reqs IH]; intros st Hn Hr; [by split |].
  cbn [serve]. apply IH; [by apply handle_named_user | by apply handle_recorded].
Qed.

(** X13. Whatever requests a browser sends, in whatever order, starting
    from an empty session: whoever has the [user_id] key has the
    [username] key, so that [/dashboard] either redirects to the login
    page or renders and never fails on the missing key; and the pointer,
    when there is one, is a name [/predict] built from a clock reading. *)
Theorem fresh_session_invariants reqs (disk : gmap string string)
    (table : list UserRow) (log : list (Event V)) :
  let st := serve E G reqs
              {| session := session_clear; fs := disk; users := table; trace := log |} in
  named_user (session st) /\
  recorded (session st) /\
  (fst (dashboard G st) = redirect "/login" \/
   exists name targets expected,
     fst (dashboard G st) =
       render_template_string "dashboard.html" (DashboardContext name targets expected)).
Proof.
  cbv zeta.
  set (st0 := {| session := session_clear; fs := disk; users := table; trace := log |}).
  destruct (serve_invariants reqs st0) as [Hn Hr].
  { cbn. by intros [? ?]. }
  { by left. }
  split; [exact Hn |]. split; [exact Hr |].
  unfold dashboard, named_user in *.
  destruct (user_id (session (serve E G reqs st0))) as [uid |]; [| by left].
  destruct Hn as [name Hname]; [by eexists |]. rewrite Hname.
  right. by do 3 eexists.
Qed.

(** X14. A successful login opens the dashboard for the user who logged
    in: when [/login] answers with the redirect to [/dashboard], the
    e-mail and the password of the form matched the first row [u] the
    store returned, the session carries the id and the name of that very
    row, and the next [/dashboard] request renders the page with that
    name, the number of targets and the model's expected feature count. *)
Theorem login_then_dashboard req st :
  fst (login E req st) = redirect "/dashboard" ->
  exists email password u rest,
    form req !! "email" = Some email /\
    form req !! "password" = Some password /\
    users_select_eq_email E (users st) email = inr (u :: rest) /\
    check_password_hash E (row_password u) password = inr true /\
    user_id (session (snd (login E req st))) = Some (row_id u) /\
    username (session (snd (login E req st))) = Some (row_username u) /\
    fst (dashboard G (snd (login E req st))) =
      render_template_string "dashboard.html"
        (DashboardContext (row_username u)
           (if Py.truthy_list (target_cols G)
            then Some (length (default [] (target_cols G))) else None)
           (match model G with Some m => n_features_in_ m | None => None end)).
Proof.
  unfold login.
  destruct (method req); try discriminate.
  destruct (form req !! "email") as [email |]; [| discriminate].
  destruct (form req !! "password") as [password |]; [| discriminate].
  destruct (users_select_eq_email E _ _) as [| [| u us]] eqn:Hsel; try discriminate.
  destruct (check_password_hash E _ _) as [| []] eqn:Hck; try discriminate.
  intros _. exists email, password, u, us. by repeat split.
Qed.

End Further.

(** ** The loading block *)

(** X15. The globals are loaded in order and the first failure stops the
    block: a loaded feature list comes with a loaded target list, and a
    loaded target list with a loaded model. *)
Theorem load_globals_in_order {V} (d : ArtifactDir V) :
  (is_Some (feature_cols (load_globals d)) -> is_Some (target_cols (load_globals d))) /\
  (is_Some (target_cols (load_globals d)) -> is_Some (model (load_globals d))).
Proof.
  unfold load_globals.
  destruct (model_pkl d) as [[? | m] |]; cbn; try (split; by intros [? ?]).
  destruct (target_cols_pkl d) as [[? | t] |]; cbn; try (split; by intros [? ?]).
  destruct (feature_cols_pkl d) as [[? | f] |]; cbn; split; intros _; by eexists.
Qed.

Section Availability.
Context {V : Type}.
Variable E : Collaborators V.

Lemma align_features_return_message (G : Globals V) (m : Model V) X r :
  align_features E G m X = Return r ->
  exists rest,
    r = predict_page ("❌ Missing features: " +:+ rest) \/
    r = predict_page ("❌ Model expects " +:+ rest).
Proof.
  unfold align_features.
  destruct (Py.truthy_list (feature_cols G)).
  - destruct (Py.truthy_list (Some _)); [intros [= <-]; eexists; by left |].
    destruct (pd.getitem_list _ X); discriminate.
  - destruct (andb _ _); [intros [= <-]; eexists; by right | discriminate].
Qed.

(** An accepted request is never answered with the not-loaded refusal. *)
Lemma accepted_not_refused (G : Globals V) req file m tcols (st : State V) :
  accepted_upload G req file m tcols ->
  fst (predict E G req st) <> predict_page "❌ Model not loaded.".
Proof.
  intros Hacc. rewrite (accepted_upload_try E G _ _ _ _ _ Hacc), predict_try_eq.
  destruct (parse_csv E (content file)) as [payload | df];
    [cbn [except_Exception fst]; unfold predict_page; cbn; discriminate |].
  rewrite predict_parsed_eq.
  destruct (align_features E G m _) as [X | r | e] eqn:Hal.
  - destruct (model_predict m X) as [payload | preds];
      [cbn [except_Exception fst]; unfold predict_page; cbn; discriminate |].
    destruct (pd.from_array preds tcols) as [e | T0];
      [cbn [except_Exception fst]; unfold predict_page; cbn; discriminate |].
    destruct (attach_ids _ T0) as [e | T];
      cbn [except_Exception fst]; unfold success_page, predict_page; cbn; discriminate.
  - apply align_features_return_message in Hal as (rest & [-> | ->]);
      cbn [except_Exception fst]; unfold predict_page; cbn; discriminate.
  - cbn [except_Exception fst]; unfold predict_page; cbn; discriminate.
Qed.

(** X16. With the globals as the loading block leaves them, a request
    with an allowed file is answered "Model not loaded" exactly when the
    model file or the target file failed to load; whether the feature
    file is there, or loads, plays no part. *)
Theorem predictions_need_model_and_targets (d : ArtifactDir V) req file (st : State V) :
  method req <> GET ->
  files_file req = Some file ->
  filename file <> "" ->
  allowed_file (filename file) = true ->
  (fst (predict E (load_globals d) req st) = predict_page "❌ Model not loaded." <->
   ~ exists m tcols, model_pkl d = Some (inr m) /\ target_cols_pkl d = Some (inr tcols)).
Proof.
  intros Hm Hf Hn Ha.
  assert (Hrefused : forall G : Globals V,
             model G = None \/ target_cols G = None ->
             fst (predict E G req st) = predict_page "❌ Model not loaded.").
  { intros G HG. unfold predict. rewrite Hf, Ha.
    rewrite bool_decide_eq_false_2 by exact Hn. cbn [orb negb].
    destruct (method req); [congruence | |];
      (destruct (model G); [| reflexivity];
       destruct (target_cols G); [| reflexivity]; by destruct HG). }
  assert (Hloaded : forall m tcols fcols,
             fst (predict E {| model := Some m; target_cols := Some tcols;
                               feature_cols := fcols |} req st)
             <> predict_page "❌ Model not loaded.").
  { intros m tcols fcols. apply (accepted_not_refused _ req file m tcols).
    by repeat split. }
  unfold load_globals.
  destruct (model_pkl d) as [[err | m] |] eqn:HM.
  - split; [intros _ (? & ? & [=] & _) | intros _; apply Hrefused; by left].
  - destruct (target_cols_pkl d) as [[err | tcols] |] eqn:HT.
    + split; [intros _ (? & ? & _ & [=]) | intros _; apply Hrefused; by right].
    + split; [| intros Hnot; destruct Hnot; by do 2 eexists].
      intros Heq. exfalso. revert Heq.
      destruct (feature_cols_pkl d) as [[? | ?] |]; apply Hloaded.
    + split; [intros _ (? & ? & _ & [=]) | intros _; apply Hrefused; by right].
  - split; [intros _ (? & ? & [=] & _) | intros _; apply Hrefused; by left].
Qed.

End Availability.

(** ** The upload filter *)

Lemma append_nil_l s : "" +:+ s = s.
Proof. reflexivity. Qed.

Lemma append_cons a s1 s2 : String a s1 +:+ s2 = String a (s1 +:+ s2).
Proof. reflexivity. Qed.

Lemma rfind_from_bounds c s i :
  Py.rfind_from c s i = -1 \/ i <= Py.rfind_from c s i < i + Z.of_nat (String.length s).
Proof.
  revert i. induction s as [| a s IH]; intros i; cbn [Py.rfind_from String.length].
  - by left.
  - destruct (IH (i + 1)) as [Hr | Hr].
    + rewrite Hr. cbn. destruct (Ascii.eqb a c); [right; lia | by left].
    + destruct (Z.leb_spec 0 (Py.rfind_from c s (i + 1))); [right; lia |].
      destruct (Ascii.eqb a c); [right; lia | by left].
Qed.

Lemma rfind_from_absent c s i :
  Py.contains c s = false -> Py.rfind_from c s i = -1.
Proof.
  revert i. induction s as [| a s IH]; intros i; cbn; [done |].
  intros [Ha Hs]%orb_false_elim. by rewrite (IH _ Hs), Ha.
Qed.

Lemma rfind_from_append c s1 s2 i :
  0 <= i ->
  Py.rfind_from c (s1 +:+ s2) i =
    if 0 <=? Py.rfind_from c s2 (i + Z.of_nat (String.length s1))
    then Py.rfind_from c s2 (i + Z.of_nat (String.length s1))
    else Py.rfind_from c s1 i.
Proof.
  revert i. induction s1 as [| a s1 IH]; intros i Hi.
  - rewrite append_nil_l. cbn [String.length Py.rfind_from]. rewrite Z.add_0_r.
    destruct (rfind_from_bounds c s2 i) as [-> | Hr]; [reflexivity |].
    by rewrite (proj2 (Z.leb_le _ _)) by lia.
  - rewrite append_cons. cbn [String.length Py.rfind_from].
    rewrite IH by lia.
    replace (i + 1 + Z.of_nat (String.length s1))
      with (i + Z.of_nat (S (String.length s1))) by lia.
    destruct (0 <=? Py.rfind_from c s2 _) eqn:Hr; [by rewrite Hr | reflexivity].
Qed.

Lemma contains_append c s1 s2 :
  Py.contains c (s1 +:+ s2) = Py.contains c s1 || Py.contains c s2.
Proof.
  induction s1 as [| a s1 IH]; [reflexivity |].
  rewrite append_cons. cbn [Py.contains]. by rewrite IH, orb_assoc.
Qed.

Lemma substring_all s : String.substring 0 (String.length s) s = s.
Proof. induction s as [| a s IH]; cbn; [reflexivity | by rewrite IH]. Qed.

Lemma substring_append_r s1 s2 :
  String.substring (String.length s1) (String.length s2) (s1 +:+ s2) = s2.
Proof.
  induction s1 as [| a s1 IH]; [apply substring_all |].
  rewrite append_cons. exact IH.
Qed.

Lemma substring_append_l s1 s2 :
  String.substring 0 (String.length s1) (s1 +:+ s2) = s1.
Proof.
  induction s1 as [| a s1 IH]; [by destruct s2 |].
  rewrite append_cons. cbn [String.length String.substring]. by rewrite IH.
Qed.

Lemma substring_split n s :
  (n <= String.length s)%nat ->
  s = String.substring 0 n s +:+ String.substring n (String.length s - n) s.
Proof.
  revert n. induction s as [| a s IH]; intros [| n] Hn; cbn in *; try lia.
  - reflexivity.
  - by rewrite substring_all.
  - rewrite append_cons. f_equal. apply IH. lia.
Qed.

Lemma substring_length n s :
  (n <= String.length s)%nat -> String.length (String.substring 0 n s) = n.
Proof.
  revert n. induction s as [| a s IH]; intros [| n] Hn; cbn in *; try lia.
  f_equal. apply IH. lia.
Qed.

Lemma length_append s1 s2 :
  String.length (s1 +:+ s2) = (String.length s1 + String.length s2)%nat.
Proof.
  induction s1 as [| a s1 IH]; [reflexivity |].
  rewrite append_cons. cbn [String.length]. by rewrite IH.
Qed.

(** [os.path.splitext] on a name without directories whose extension is
    the last dot and what follows it. *)
Lemma splitext_stem_ext c0 s0 e :
  c0 <> "."%char ->
  Py.contains "/" (String c0 s0) = false ->
  Py.contains "/" e = false ->
  Py.contains "." e = false ->
  Py.splitext (String c0 s0 +:+ String "." e) = (String c0 s0, String "." e).
Proof.
  intros Hc0 Hslash Hslash_e Hdot_e.
  set (stem := String c0 s0) in *. set (ext := String "."%char e).
  assert (Hsep : Py.rfind "/" (stem +:+ ext) = -1).
  { apply rfind_from_absent. rewrite contains_append, Hslash. cbn. exact Hslash_e. }
  assert (Hdot : Py.rfind "." (stem +:+ ext) = Z.of_nat (String.length stem)).
  { unfold Py.rfind. rewrite rfind_from_append by lia.
    unfold ext. cbn [Py.rfind_from]. rewrite (rfind_from_absent _ _ _ Hdot_e). cbn.
    by rewrite (proj2 (Z.leb_le _ _)) by lia. }
  unfold Py.splitext. rewrite Hsep, Hdot.
  replace (-1 <? Z.of_nat (String.length stem)) with true
    by (symmetry; apply Z.ltb_lt; lia).
  match goal with
  | |- context [existsb ?f ?l] => assert (Hex : existsb f l = true)
  end.
  { apply existsb_exists. exists 0%nat. split.
    - apply in_seq. unfold stem. cbn [String.length]. lia.
    - change (String.get _ (stem +:+ ext)) with (Some c0).
      by rewrite (bool_decide_eq_false_2 (Some c0 = Some "."%char)) by congruence. }
  rewrite Hex.
  cbn [andb]. unfold Py.slice_to, Py.slice_from. rewrite Nat2Z.id.
  rewrite length_append.
  replace (String.length stem + String.length ext - String.length stem)%nat
    with (String.length ext) by lia.
  by rewrite substring_append_l, substring_append_r.
Qed.

Lemma lower_ascii_dot a : Py.lower_ascii a = "."%char -> a = "."%char.
Proof. destruct a as [[] [] [] [] [] [] [] []]; vm_compute; congruence. Qed.

Lemma lower_ascii_letter a b :
  b ∈ ["c"; "s"; "v"]%char -> Py.lower_ascii a = b ->
  Ascii.eqb a "/" = false /\ Ascii.eqb a "." = false.
Proof.
  intros Hb Ha. repeat (apply elem_of_cons in Hb as [-> | Hb]);
    [| | | by apply elem_of_nil in Hb];
    destruct a as [[] [] [] [] [] [] [] []]; vm_compute in Ha |- *;
    first [discriminate Ha | by split].
Qed.

(** X17. The filter accepts every name without directories that starts
    with a character other than a dot and ends in [.csv], in any mix of
    upper and lower case; dots inside the stem do not matter. *)
Theorem allowed_file_accepts c0 s0 ext :
  c0 <> "."%char ->
  Py.contains "/" (String c0 s0) = false ->
  Py.lower ext = ".csv" ->
  allowed_file (String c0 s0 +:+ ext) = true.
Proof.
  intros Hc0 Hslash Hext.
  destruct ext as [| d [| a [| b [| c [| ? ?]]]]]; try discriminate Hext.
  cbn [Py.lower] in Hext. injection Hext as Hd Ha Hb Hc.
  apply lower_ascii_dot in Hd as ->.
  destruct (lower_ascii_letter a "c"%char ltac:(set_solver) Ha) as [Ha1 Ha2].
  destruct (lower_ascii_letter b "s"%char ltac:(set_solver) Hb) as [Hb1 Hb2].
  destruct (lower_ascii_letter c "v"%char ltac:(set_solver) Hc) as [Hc1 Hc2].
  unfold allowed_file. rewrite splitext_stem_ext; try assumption.
  - cbn [snd Py.lower]. rewrite Ha, Hb, Hc. by apply bool_decide_eq_true_2; left.
  - cbn [Py.contains]. by rewrite Ha1, Hb1, Hc1.
  - cbn [Py.contains]. by rewrite Ha2, Hb2, Hc2.
Qed.

(** X18. What the filter accepts is a non-empty stem followed by an
    extension that reads [.csv] in lower case: at least five characters.
    The empty name, a bare [.csv] and a name without a dot are refused. *)
Theorem allowed_file_sound name :
  allowed_file name = true ->
  exists stem ext,
    name = stem +:+ ext /\ stem <> "" /\ Py.lower ext = ".csv" /\
    (5 <= String.length name)%nat.
Proof.
  unfold allowed_file, ALLOWED_EXTENSIONS. intros Hok.
  apply bool_decide_eq_true_1, list_elem_of_singleton in Hok.
  unfold Py.splitext in Hok.
  set (sep := Py.rfind "/" name) in *. set (dot := Py.rfind "." name) in *.
  destruct (andb _ _) eqn:Hcond; [| discriminate Hok].
  apply andb_prop in Hcond as [Hlt Hex]. apply Z.ltb_lt in Hlt.
  apply existsb_exists in Hex as (k & Hk & _). apply in_seq in Hk.
  assert (Hsep : -1 <= sep).
  { destruct (rfind_from_bounds "/" name 0) as [H | H]; unfold sep, Py.rfind; lia. }
  assert (Hdot : 1 <= dot < Z.of_nat (String.length name)).
  { destruct (rfind_from_bounds "." name 0) as [H | H]; unfold dot, Py.rfind in *; lia. }
  cbn [snd] in Hok. unfold Py.slice_from in Hok.
  exists (String.substring 0 (Z.to_nat dot) name),
         (String.substring (Z.to_nat dot) (String.length name - Z.to_nat dot) name).
  split; [apply substring_split; lia |]. split; [| split; [exact Hok |]].
  - intros Hempty. apply (f_equal String.length) in Hempty.
    rewrite substring_length in Hempty by lia. cbn in Hempty. lia.
  - pose proof (substring_split (Z.to_nat dot) name ltac:(lia)) as Hsplit.
    apply (f_equal String.length) in Hsplit.
    rewrite length_append, substring_length in Hsplit by lia.
    assert (Hlen : String.length
              (String.substring (Z.to_nat dot) (String.length name - Z.to_nat dot) name) = 4%nat).
    { revert Hok. generalize (String.substring (Z.to_nat dot)
                                (String.length name - Z.to_nat dot) name).
      intros [| ? [| ? [| ? [| ? [| ? ?]]]]]; cbn; congruence. }
    lia.
Qed.

Lemma digit_is_not (c : ascii) n :
  c ∈ ["/"; "."]%char -> Ascii.eqb (digit n) c = false.
Proof.
  intros Hc. unfold digit.
  pose proof (Z.mod_pos_bound n 10 eq_refl) as Hn.
  assert (Hk : (Z.to_nat (n mod 10) < 10)%nat) by lia.
  revert Hk. generalize (Z.to_nat (n mod 10)) as k. intros k Hk.
  repeat (apply elem_of_cons in Hc as [-> | Hc]); [| | by apply elem_of_nil in Hc];
    do 10 (destruct k as [| k]; [reflexivity |]); lia.
Qed.

(** X19. The name of a stored result passes the upload filter, for every
    clock reading: results live in the upload folder under names that an
    upload may carry too. *)
Theorem out_name_is_allowed t : allowed_file (out_name t) = true.
Proof.
  unfold allowed_file.
  change (out_name t)
    with (String "p" ("redictions_" +:+ strftime t) +:+ String "." "csv").
  rewrite splitext_stem_ext; [reflexivity | discriminate | | reflexivity | reflexivity].
  change (String "p" ("redictions_" +:+ strftime t)) with ("predictions_" +:+ strftime t).
  rewrite contains_append. unfold strftime, pad4, pad2. cbn [Py.contains].
  rewrite !(digit_is_not "/") by set_solver. reflexivity.
Qed.

(** ** The further properties on the instance *)

Lemma accepted_demo (G0 : Globals Z) (m : Model Z) file t :
  model G0 = Some m -> target_cols G0 = Some ["y"] ->
  filename file <> "" -> allowed_file (filename file) = true ->
  accepted_upload G0 (post file t) file m ["y"].
Proof. intros. repeat split; try discriminate; assumption. Qed.

Lemma predict_fs_frame_witness :
  fs (snd (predict E G req_a st_busy)) !! "uploads/keep.csv" =
  fs st_busy !! "uploads/keep.csv".
Proof.
  apply (predict_fs_frame E G req_a st_busy "uploads/keep.csv").
  - intros file [= <-]. compute_done.
  - compute_done.
Defined.

Lemma upload_is_kept_witness :
  fs (snd (predict E G req_a st0)) !! upload_path E file_a = Some (content file_a) \/
  (upload_path E file_a = result_path (now req_a) /\
   exists T, fs (snd (predict E G req_a st0)) !! upload_path E file_a = Some (to_csv E T)).
Proof.
  apply (upload_is_kept E G req_a file_a adder ["y"] st0).
  apply accepted_demo; try reflexivity. discriminate.
Defined.

Lemma parse_error_reported_witness :
  predict E G req_bad st0 =
    (predict_page "❌ Error: Error tokenizing data", uploaded E file_bad st0).
Proof.
  apply (parse_error_reported E G req_bad file_bad adder ["y"] "Error tokenizing data" st0).
  - apply accepted_demo; try reflexivity. discriminate.
  - reflexivity.
Defined.

Lemma predict_depends_on_upload_only_witness :
  fst (predict E G req_b st0) = fst (predict E G req_b_later st_pointer) /\
  (forall p1 T1 p2 T2,
     written (trace (snd (predict E G req_b st0))) = written (trace st0) ++ [(p1, T1)] ->
     written (trace (snd (predict E G req_b_later st_pointer))) =
       written (trace st_pointer) ++ [(p2, T2)] ->
     T1 = T2).
Proof.
  apply (predict_depends_on_upload_only E G req_b req_b_later st0 st_pointer);
    reflexivity.
Defined.

Lemma download_after_predict_witness :
  let st' := snd (predict E G req_a st0) in
  download st' =
    (send_file (result_path (now req_a)) "text/csv" (out_name (now req_a)), st') /\
  fs st' !! result_path (now req_a) = Some (to_csv E table_y).
Proof.
  apply (download_after_predict E G req_a st0 (result_path t0) table_y).
  vm_compute. reflexivity.
Defined.

Lemma logout_orphans_result_witness :
  let st' := snd (logout (snd (predict E G req_a st0))) in
  download st' = (Body "❌ No predictions available." 400, st') /\
  fst (dashboard G st') = redirect "/login" /\
  fs st' !! result_path (now req_a) = Some (to_csv E table_y).
Proof.
  apply (logout_orphans_result E G req_a st0 (result_path t0) table_y).
  vm_compute. reflexivity.
Defined.

Lemma login_then_dashboard_witness :
  exists email password u rest,
    form login_ada !! "email" = Some email /\
    form login_ada !! "password" = Some password /\
    users_select_eq_email E (users st_registered) email = inr (u :: rest) /\
    check_password_hash E (row_password u) password = inr true /\
    user_id (session (snd (login E login_ada st_registered))) = Some (row_id u) /\
    username (session (snd (login E login_ada st_registered))) = Some (row_username u) /\
    fst (dashboard G (snd (login E login_ada st_registered))) =
      render_template_string "dashboard.html"
        (DashboardContext (row_username u)
           (if Py.truthy_list (target_cols G)
            then Some (length (default [] (target_cols G))) else None)
           (match model G with Some m => n_features_in_ m | None => None end)).
Proof.
  apply (login_then_dashboard E G login_ada st_registered).
  vm_compute. reflexivity.
Defined.

Lemma predictions_need_model_and_targets_witness :
  fst (predict E (load_globals dir_no_targets) req_a st0) =
    predict_page "❌ Model not loaded." /\
  fst (predict E (load_globals dir_full) req_a st0) <> predict_page "❌ Model not loaded.".
Proof.
  split.
  - apply (proj2 (predictions_need_model_and_targets E dir_no_targets req_a file_a st0
                    ltac:(discriminate) eq_refl ltac:(discriminate) eq_refl)).
    intros (m & tcols & _ & Ht). discriminate Ht.
  - intros Heq.
    apply (proj1 (predictions_need_model_and_targets E dir_full req_a file_a st0
                    ltac:(discriminate) eq_refl ltac:(discriminate) eq_refl)) in Heq.
    apply Heq. by exists adder, ["y"].
Defined.

Lemma allowed_file_accepts_witness : allowed_file "report.v2.CSV" = true.
Proof.
  apply (allowed_file_accepts "r" "eport.v2" ".CSV"); [discriminate | reflexivity ..].
Defined.

Lemma allowed_file_sound_witness :
  exists stem ext,
    "a.csv" = stem +:+ ext /\ stem <> "" /\ Py.lower ext = ".csv" /\
    (5 <= String.length "a.csv")%nat.
Proof. apply (allowed_file_sound "a.csv"). reflexivity. Defined.

(** * More on the pipeline and the disk *)

Section Edges.
Context {V : Type}.
Variable E : Collaborators V.
Variable G : Globals V.

Implicit Types (st : State V) (df X T : pd.DataFrame V) (m : Model V).

(** X20. With no schema at all (no usable feature list, and a model
    without [n_features_in_]) nothing is checked: the model is called on
    the upload as it is, less its [ID] column, whatever its width. *)
Theorem no_schema_no_check req file m tcols df st :
  parsed_upload E G req file m tcols df ->
  feature_cols G = None \/ feature_cols G = Some [] ->
  n_features_in_ m = None ->
  model_inputs (trace (snd (predict E G req st))) =
    model_inputs (trace st) ++ [pd.drop_columns ["ID"] df].
Proof.
  intros Hup Hdeg Hn.
  rewrite (predict_parsed_upload E G _ _ _ _ _ _ Hup).
  rewrite (model_called_once E G req m tcols df (pd.drop_columns ["ID"] df)).
  - by destruct (uploaded_log E file st) as (-> & _).
  - by rewrite (align_degraded E G m _ Hdeg), Hn.
Qed.

Lemma drop_columns_absent (c : string) df :
  c ∉ pd.columns df -> pd.drop_columns [c] df = df.
Proof.
  destruct df as [n cs]. unfold pd.drop_columns, pd.columns. cbn [pd.cols pd.nrows].
  intros Hc. f_equal. induction cs as [| [a col] cs IH]; [reflexivity |].
  cbn in Hc |- *. apply not_elem_of_cons in Hc as [Hne Hcs].
  rewrite bool_decide_eq_false_2 by (intros ->%list_elem_of_singleton; congruence).
  cbn. f_equal. by apply IH.
Qed.

(** X21. An upload without an [ID] column: nothing is taken out before
    the feature check, and a stored result has the target columns and
    nothing else. *)
Theorem without_ID_targets_only req file m tcols df st path T :
  parsed_upload E G req file m tcols df ->
  "ID" ∉ pd.columns df ->
  written (trace (snd (predict E G req st))) = written (trace st) ++ [(path, T)] ->
  pd.drop_columns ["ID"] df = df /\ pd.columns T = tcols.
Proof.
  intros Hup HID Hw. split.
  - by apply drop_columns_absent.
  - rewrite (predict_parsed_upload E G _ _ _ _ _ _ Hup), predict_parsed_eq in Hw.
    assert (Hno : forall st1 : State V,
               written (trace st1) = written (trace st) ->
               written (trace st1) <> written (trace st) ++ [(path, T)]).
    { intros st1 -> Heq. apply (f_equal length) in Heq.
      rewrite length_app in Heq. cbn in Heq. lia. }
    destruct (uploaded_log E file st) as (_ & Hu & _).
    destruct (align_features E G m _) as [X | r | e];
      cbn [except_Exception snd] in Hw; try (by apply Hno in Hw).
    destruct (predicted_log X (uploaded E file st)) as (_ & Hp & _).
    assert (Hp' : written (trace (predicted X (uploaded E file st))) = written (trace st))
      by congruence.
    destruct (model_predict m X) as [payload | preds];
      cbn [except_Exception snd] in Hw; [by apply Hno in Hw |].
    destruct (pd.from_array preds tcols) as [e | T0] eqn:Harr;
      cbn [except_Exception snd] in Hw; [by apply Hno in Hw |].
    rewrite (bool_decide_eq_false_2 _ HID : pd.has_column "ID" df = false) in Hw.
    cbn [attach_ids except_Exception snd] in Hw.
    destruct (stored_log E (now req) T0 (predicted X (uploaded E file st))) as (_ & Hs & _).
    rewrite Hs, Hp' in Hw. apply app_inv_head in Hw. injection Hw as _ <-.
    by destruct (from_array_columns preds tcols T0 Harr).
Qed.

(** X22. A target list that itself names a column [ID] clashes with the
    identifiers: every upload that has an [ID] column then ends without a
    stored result and with the session as it was, the model having been
    called or not. *)
Theorem ID_target_never_stored req file m tcols df st :
  parsed_upload E G req file m tcols df ->
  "ID" ∈ pd.columns df ->
  "ID" ∈ tcols ->
  written (trace (snd (predict E G req st))) = written (trace st) /\
  session (snd (predict E G req st)) = session st.
Proof.
  intros Hup HID Htarget.
  rewrite (predict_parsed_upload E G _ _ _ _ _ _ Hup), predict_parsed_eq.
  destruct (uploaded_log E file st) as (_ & Hu & Hus).
  destruct (align_features E G m _) as [X | r | e];
    cbn [except_Exception snd]; try by auto.
  destruct (predicted_log X (uploaded E file st)) as (_ & Hp & Hps).
  destruct (model_predict m X) as [payload | preds];
    cbn [except_Exception snd]; [split; congruence |].
  destruct (pd.from_array preds tcols) as [e | T0] eqn:Harr;
    cbn [except_Exception snd]; [split; congruence |].
  rewrite (bool_decide_eq_true_2 _ HID : pd.has_column "ID" df = true).
  destruct (lookup_column_is_Some "ID" (pd.cols df) HID) as [ids Hids].
  unfold pd.getitem. rewrite Hids. cbn [attach_ids]. unfold pd.insert0.
  destruct (from_array_columns preds tcols T0 Harr) as [Hcols _].
  rewrite (bool_decide_eq_true_2 _ (eq_ind_r (fun l => "ID" ∈ l) Htarget Hcols)
            : pd.has_column "ID" T0 = true).
  cbn [except_Exception snd]. split; congruence.
Qed.

(** X23. When the feature check fails for missing columns, the message
    shows at most ten names, each of them listed in the schema and absent
    from the upload, and ends in an ellipsis exactly when more than ten
    are missing. *)
Theorem missing_message_is_truncated m X fc :
  feature_cols G = Some fc ->
  (exists c, c ∈ fc /\ c ∉ pd.columns X) ->
  exists shown suffix,
    align_features E G m X =
      Return (predict_page ("❌ Missing features: " +:+ py_repr E shown +:+ suffix)) /\
    (length shown <= 10)%nat /\
    (forall c, c ∈ shown -> c ∈ fc /\ c ∉ pd.columns X) /\
    (suffix = "..." \/ suffix = "") /\
    (suffix = "..." <->
     (10 < length (List.filter (fun c => negb (bool_decide (c ∈ pd.columns X))) fc))%nat).
Proof.
  intros Hfc Hmiss. rewrite (align_missing E G m X fc Hfc Hmiss). cbv zeta.
  set (missing := List.filter _ fc).
  exists (take 10 missing), (if (10 <? length missing)%nat then "..." else "").
  split; [reflexivity |]. split; [rewrite length_take; lia |]. split.
  - intros c Hc. apply (subseteq_take 10 missing) in Hc.
    apply list_elem_of_In, filter_In in Hc as [Hin Hout].
    split; [by apply list_elem_of_In |].
    apply negb_true_iff in Hout. by apply bool_decide_eq_false_1 in Hout.
  - destruct (Nat.ltb_spec 10 (length missing)); split; auto; split; try done; lia.
Qed.

(** ** The disk over several requests *)

Lemma handle_keeps_files r req st path :
  is_Some (fs st !! path) -> is_Some (fs (snd (handle E G r req st)) !! path).
Proof.
  intros Hpath. destruct r; cbn [handle]; unfold get_only.
  - by destruct (method req).
  - by destruct (signup_keeps E req st) as (_ & -> & _).
  - by destruct (login_keeps E req st) as (-> & _).
  - destruct (method req); rewrite ?dashboard_state; exact Hpath.
  - by destruct (method req).
  - destruct (predict_closed_or_accepted E G req st)
      as [-> | [(msg & _ & ->) | (file & m & tcols & Hacc)]]; [done .. |].
    destruct (predict_accepted_exits E G req file m tcols st Hacc)
      as [(msg & ->) | [(msg & X & ->) | (X & T & ->)]];
      cbn [snd stored predicted uploaded fs];
      rewrite ?lookup_insert_is_Some'; auto.
  - destruct (method req); rewrite ?download_state; exact Hpath.
Qed.

(** X24. The service never deletes a file: whatever is on disk before a
    sequence of requests is on disk after it (possibly overwritten). *)
Theorem serve_keeps_files reqs st path :
  is_Some (fs st !! path) -> is_Some (fs (serve E G reqs st) !! path).
Proof.
  revert st. induction reqs as [| [r req] reqs IH]; intros st Hpath; [exact Hpath |].
  cbn [serve]. apply IH. by apply handle_keeps_files.
Qed.

Lemma handle_pointer_on_disk r req st :
  pointer_on_disk st -> pointer_on_disk (snd (handle E G r req st)).
Proof.
  unfold pointer_on_disk. intros Hst. destruct r; cbn [handle]; unfold get_only.
  - by destruct (method req).
  - destruct (signup_keeps E req st) as (-> & -> & _). exact Hst.
  - rewrite (login_pointer E req st).
    destruct (login_keeps E req st) as (-> & _). exact Hst.
  - destruct (method req); rewrite ?dashboard_state; exact Hst.
  - destruct (method req); [| exact Hst |]; intros name [=].
  - destruct (predict_closed_or_accepted E G req st)
      as [-> | [(msg & _ & ->) | (file & m & tcols & Hacc)]]; [done .. |].
    destruct (predict_accepted_exits E G req file m tcols st Hacc)
      as [(msg & ->) | [(msg & X & ->) | (X & T & ->)]];
      cbn [snd stored predicted uploaded fs session last_prediction_csv];
      intros name Hname.
    + rewrite lookup_insert_is_Some'. right. by apply Hst.
    + rewrite lookup_insert_is_Some'. right. by apply Hst.
    + injection Hname as <-. rewrite lookup_insert_is_Some'. by left.
  - destruct (method req); rewrite ?download_state; exact Hst.
Qed.

Lemma serve_pointer_on_disk reqs st :
  pointer_on_disk st -> pointer_on_disk (serve E G reqs st).
Proof.
  revert st. induction reqs as [| [r req] reqs IH]; intros st Hst; [exact Hst |].
  cbn [serve]. apply IH. by apply handle_pointer_on_disk.
Qed.

(** X25. The application itself never strands its pointer: starting from
    an empty session, after any sequence of requests, the pointer names a
    file that is on disk, so that [/download] answers 400 or sends a
    file. The 404 answer can only follow a deletion from outside. *)
Theorem download_never_404_by_itself reqs (disk : gmap string string)
    (table : list UserRow) (log : list (Event V)) :
  let st := serve E G reqs
              {| session := session_clear; fs := disk; users := table; trace := log |} in
  pointer_on_disk st /\
  (fst (download st) = Body "❌ No predictions available." 400 \/
   exists name,
     last_prediction_csv (session st) = Some name /\
     fst (download st) =
       send_file (Py.path_join UPLOAD_FOLDER name) "text/csv" name).
Proof.
  cbv zeta.
  set (st0 := {| session := session_clear; fs := disk; users := table; trace := log |}).
  assert (Hon : pointer_on_disk (serve E G reqs st0)).
  { apply serve_pointer_on_disk. intros name [=]. }
  split; [exact Hon |].
  unfold download, pointer_on_disk in *.
  destruct (last_prediction_csv (session (serve E G reqs st0))) as [name |];
    [| by left].
  destruct (Py.truthy_str (Some name)); cbn [negb]; [| by left].
  cbn [default from_option id].
  rewrite (bool_decide_eq_true_2 _ (Hon name eq_refl)). cbn [negb].
  right. by exists name.
Qed.

End Edges.

Lemma no_schema_no_check_witness :
  model_inputs (trace (snd (predict E G_bare req_a st0))) =
    model_inputs (trace st0) ++ [pd.drop_columns ["ID"] upload_a].
Proof.
  apply (no_schema_no_check E G_bare req_a file_a
           {| model_predict := constant_model; n_features_in_ := None |} ["y"] upload_a st0).
  - apply DemoFacts.parsed_a; reflexivity.
  - by left.
  - reflexivity.
Defined.

Lemma without_ID_targets_only_witness :
  pd.drop_columns ["ID"] upload_d = upload_d /\ pd.columns table_plain = ["y"].
Proof.
  apply (without_ID_targets_only E_plain G req_d file_d adder ["y"] upload_d st0
           (result_path t0) table_plain).
  - repeat split; try discriminate; vm_compute; reflexivity.
  - compute_done.
  - vm_compute. reflexivity.
Defined.

Lemma ID_target_never_stored_witness :
  written (trace (snd (predict E G_id_target req_a st0))) = written (trace st0) /\
  session (snd (predict E G_id_target req_a st0)) = session st0.
Proof.
  apply (ID_target_never_stored E G_id_target req_a file_a adder ["ID"] upload_a st0).
  - repeat split; try discriminate; vm_compute; reflexivity.
  - compute_done.
  - compute_done.
Defined.

Lemma missing_message_is_truncated_witness :
  exists shown suffix,
    align_features E G adder (pd.drop_columns ["ID"] upload_c) =
      Return (predict_page ("❌ Missing features: " +:+ py_repr E shown +:+ suffix)) /\
    (length shown <= 10)%nat /\
    (forall c, c ∈ shown ->
       c ∈ ["x1"; "x2"] /\ c ∉ pd.columns (pd.drop_columns ["ID"] upload_c)) /\
    (suffix = "..." \/ suffix = "") /\
    (suffix = "..." <->
     (10 < length (List.filter
                     (fun c => negb (bool_decide
                                       (c ∈ pd.columns (pd.drop_columns ["ID"] upload_c))))
                     ["x1"; "x2"]))%nat).
Proof.
  apply (missing_message_is_truncated E G adder (pd.drop_columns ["ID"] upload_c)
           ["x1"; "x2"]).
  - reflexivity.
  - exists "x2". split; compute_done.
Defined.

Lemma serve_keeps_files_witness :
  is_Some (fs (serve E G [(RPredict, req_a); (RLogout, get); (RPredict, req_bad)] st_busy)
             !! "uploads/keep.csv").
Proof.
  apply (serve_keeps_files E G [(RPredict, req_a); (RLogout, get); (RPredict, req_bad)]
           st_busy "uploads/keep.csv").
  compute_done.
Defined.
